(** * Client-side controller of the fund dashboard (app/js/main.js)

    A shallow embedding of the state/update pipeline of [main.js]: the
    globals ([chart], [selectedFunds], [dataLoaded]), the part of the
    document the script reads and writes, and every function of the file
    as a task over that state.  Asynchronous functions are trees whose
    nodes are the places where the script touches the page or waits for
    the network; the network is an oracle answering the n-th request.

    How the script is read:
    - The elements the script looks up by id exist; a control is its
      [value] (and [min], [max] for the date inputs).
    - A response body is a record with one field per key the script reads;
      a key that is not sent reads [undefined].  The numbers of a
      statistics entry are missing, null or a number.  Numbers are
      rationals; what the engine does with them ([toFixed], dates, the
      clock) is a parameter, [Host].
    - An [innerHTML] assignment is the tree of elements it parses to,
      without the white space between tags.
    - [trace] records requests, notifications, console errors and the
      showing and hiding of the overlay in program order; the script does
      not read it.
    - A handler runs to its end before the next event is taken.  The one
      un-awaited call of the script, [updateChart()] in [resetFilters], is
      interleaved with its caller as the event loop does it ([fork]).
    - Banners are not timed out, and the chart is what [chart.data] and
      the y-axis title hold. *)

From stdpp Require Import base strings list gmap.
From Stdlib Require Import Ascii QArith DecimalString.

Local Open Scope string_scope.
Local Open Scope list_scope.
Set Warnings "-register-all".

(** ** Values exchanged with the service *)

(** A thrown JavaScript error: constructor name and [message]. *)
Record exn := Exn { exn_name : string; exn_message : string }.

(** A JSON-born JavaScript value as it occurs in a chart dataset. Numbers
    are the exact decimal values of the JSON literals. *)
Inductive jsval :=
| VUndef
| VNull
| VBool (b : bool)
| VNum (q : Q)
| VStr (s : string)
| VArr (l : list jsval).

(** A property of a response object that the script tests against [null]
    and [undefined]: missing key, JSON null, or a value. *)
Inductive field (A : Type) :=
| Absent
| Null
| Val (a : A).
Arguments Absent {A}.
Arguments Null {A}.
Arguments Val {A} a.

(** An entry of [statsData.statistics]. *)
Record stat_entry := {
  current : field Q;
  change : field Q;
  min : field Q;
  max : field Q;
  count : field Q;
  total_periods : field Q;
  data_coverage : field Q
}.

Record availability := {
  coverage_percentage : field Q;
  first_data_date : option string;
  last_data_date : option string
}.

Record date_range_t := { start : string; end_ : string }.

(** [info.prices_info] / [info.returns_info]. [fund_availability] keeps the
    order of [Object.entries]. *)
Record dataset_info := {
  record_count : field Q;
  date_range : option date_range_t;
  fund_availability : option (list (string * availability))
}.

(** [chartData.data]: each dataset is a plain object. *)
Record chart_data := {
  cd_labels : list string;
  cd_datasets : list (gmap string jsval)
}.

(** The parsed JSON body of a response.  One record for all routes: a key
    a route does not send is [None] / [false], as a missing property reads
    [undefined] in the script. *)
Record body := {
  success : bool;
  message : option string;
  data : option chart_data;
  statistics : option (gmap string stat_entry);
  prices_loaded : bool;
  returns_loaded : bool;
  prices_info : option dataset_info;
  returns_info : option dataset_info
}.

(** What [fetch] resolves to: [response.ok], the result of
    [response.json()] (which may reject) and the raw bytes for [blob()]. *)
Record response := {
  ok : bool;
  json : exn + body;
  blob : string
}.

Inductive outcome :=
| Rejected (e : exn)
| Resolved (r : response).

(** The filter object sent to chart-data, statistics and export. *)
Record query := {
  data_type : string;
  start_date : string;
  end_date : string;
  funds : list string
}.

Inductive payload :=
| NoData
| FormData (file : string)
| Json (q : query).

Record request := {
  url : string;
  method : string;
  content_type : option string;
  req_body : payload
}.

(** ** The page *)

(** The DOM produced by an [innerHTML] assignment. *)
Inductive node :=
| Text (s : string)
| Elem (tag class style : string) (children : list node).

(** Observable effects, in program order. *)
Inductive event :=
| EvRequest (r : request)
| EvLoading (shown : bool)
| EvNotify (msg type : string)
| EvConsoleError (label : string) (e : exn).

Record loaded := { prices : bool; returns : bool }.

Record date_input := { di_min : string; di_max : string; di_value : string }.

(** [chart.data.labels], [chart.data.datasets] and
    [chart.options.scales.y.title.text]. *)
Record Chart := {
  labels : list string;
  datasets : list (gmap string jsval);
  y_title : string
}.

Record checkbox := {
  cb_value : string;
  cb_checked : bool;
  cb_color : string;
  cb_label_checked : bool
}.

Record Page := {
  chart : option Chart;
  selectedFunds : list string;
  dataLoaded : loaded;
  dataType : string;
  startDate : date_input;
  endDate : date_input;
  chartType : string;
  chartTitle : string;
  statsGrid : list node;
  dataInfoCard : string;
  dataInfoGrid : list node;
  fundSelection : list checkbox;
  loadingOverlay : string;
  notification : option (string * string);
  downloads : list (string * string);
  trace : list event
}.

Definition set_chart (v : option Chart) (p : Page) : Page :=
  {| chart := v; selectedFunds := selectedFunds p; dataLoaded := dataLoaded p;
     dataType := dataType p; startDate := startDate p; endDate := endDate p;
     chartType := chartType p; chartTitle := chartTitle p; statsGrid := statsGrid p;
     dataInfoCard := dataInfoCard p; dataInfoGrid := dataInfoGrid p;
     fundSelection := fundSelection p; loadingOverlay := loadingOverlay p;
     notification := notification p; downloads := downloads p; trace := trace p |}.

Definition set_selectedFunds (v : list string) (p : Page) : Page :=
  {| chart := chart p; selectedFunds := v; dataLoaded := dataLoaded p;
     dataType := dataType p; startDate := startDate p; endDate := endDate p;
     chartType := chartType p; chartTitle := chartTitle p; statsGrid := statsGrid p;
     dataInfoCard := dataInfoCard p; dataInfoGrid := dataInfoGrid p;
     fundSelection := fundSelection p; loadingOverlay := loadingOverlay p;
     notification := notification p; downloads := downloads p; trace := trace p |}.

Definition set_dataLoaded (v : loaded) (p : Page) : Page :=
  {| chart := chart p; selectedFunds := selectedFunds p; dataLoaded := v;
     dataType := dataType p; startDate := startDate p; endDate := endDate p;
     chartType := chartType p; chartTitle := chartTitle p; statsGrid := statsGrid p;
     dataInfoCard := dataInfoCard p; dataInfoGrid := dataInfoGrid p;
     fundSelection := fundSelection p; loadingOverlay := loadingOverlay p;
     notification := notification p; downloads := downloads p; trace := trace p |}.

Definition set_dataType (v : string) (p : Page) : Page :=
  {| chart := chart p; selectedFunds := selectedFunds p; dataLoaded := dataLoaded p;
     dataType := v; startDate := startDate p; endDate := endDate p;
     chartType := chartType p; chartTitle := chartTitle p; statsGrid := statsGrid p;
     dataInfoCard := dataInfoCard p; dataInfoGrid := dataInfoGrid p;
     fundSelection := fundSelection p; loadingOverlay := loadingOverlay p;
     notification := notification p; downloads := downloads p; trace := trace p |}.

Definition set_startDate (v : date_input) (p : Page) : Page :=
  {| chart := chart p; selectedFunds := selectedFunds p; dataLoaded := dataLoaded p;
     dataType := dataType p; startDate := v; endDate := endDate p;
     chartType := chartType p; chartTitle := chartTitle p; statsGrid := statsGrid p;
     dataInfoCard := dataInfoCard p; dataInfoGrid := dataInfoGrid p;
     fundSelection := fundSelection p; loadingOverlay := loadingOverlay p;
     notification := notification p; downloads := downloads p; trace := trace p |}.

Definition set_endDate (v : date_input) (p : Page) : Page :=
  {| chart := chart p; selectedFunds := selectedFunds p; dataLoaded := dataLoaded p;
     dataType := dataType p; startDate := startDate p; endDate := v;
     chartType := chartType p; chartTitle := chartTitle p; statsGrid := statsGrid p;
     dataInfoCard := dataInfoCard p; dataInfoGrid := dataInfoGrid p;
     fundSelection := fundSelection p; loadingOverlay := loadingOverlay p;
     notification := notification p; downloads := downloads p; trace := trace p |}.

Definition set_chartType (v : string) (p : Page) : Page :=
  {| chart := chart p; selectedFunds := selectedFunds p; dataLoaded := dataLoaded p;
     dataType := dataType p; startDate := startDate p; endDate := endDate p;
     chartType := v; chartTitle := chartTitle p; statsGrid := statsGrid p;
     dataInfoCard := dataInfoCard p; dataInfoGrid := dataInfoGrid p;
     fundSelection := fundSelection p; loadingOverlay := loadingOverlay p;
     notification := notification p; downloads := downloads p; trace := trace p |}.

Definition set_chartTitle (v : string) (p : Page) : Page :=
  {| chart := chart p; selectedFunds := selectedFunds p; dataLoaded := dataLoaded p;
     dataType := dataType p; startDate := startDate p; endDate := endDate p;
     chartType := chartType p; chartTitle := v; statsGrid := statsGrid p;
     dataInfoCard := dataInfoCard p; dataInfoGrid := dataInfoGrid p;
     fundSelection := fundSelection p; loadingOverlay := loadingOverlay p;
     notification := notification p; downloads := downloads p; trace := trace p |}.

Definition set_statsGrid (v : list node) (p : Page) : Page :=
  {| chart := chart p; selectedFunds := selectedFunds p; dataLoaded := dataLoaded p;
     dataType := dataType p; startDate := startDate p; endDate := endDate p;
     chartType := chartType p; chartTitle := chartTitle p; statsGrid := v;
     dataInfoCard := dataInfoCard p; dataInfoGrid := dataInfoGrid p;
     fundSelection := fundSelection p; loadingOverlay := loadingOverlay p;
     notification := notification p; downloads := downloads p; trace := trace p |}.

Definition set_dataInfoCard (v : string) (p : Page) : Page :=
  {| chart := chart p; selectedFunds := selectedFunds p; dataLoaded := dataLoaded p;
     dataType := dataType p; startDate := startDate p; endDate := endDate p;
     chartType := chartType p; chartTitle := chartTitle p; statsGrid := statsGrid p;
     dataInfoCard := v; dataInfoGrid := dataInfoGrid p;
     fundSelection := fundSelection p; loadingOverlay := loadingOverlay p;
     notification := notification p; downloads := downloads p; trace := trace p |}.

Definition set_dataInfoGrid (v : list node) (p : Page) : Page :=
  {| chart := chart p; selectedFunds := selectedFunds p; dataLoaded := dataLoaded p;
     dataType := dataType p; startDate := startDate p; endDate := endDate p;
     chartType := chartType p; chartTitle := chartTitle p; statsGrid := statsGrid p;
     dataInfoCard := dataInfoCard p; dataInfoGrid := v;
     fundSelection := fundSelection p; loadingOverlay := loadingOverlay p;
     notification := notification p; downloads := downloads p; trace := trace p |}.

Definition set_fundSelection (v : list checkbox) (p : Page) : Page :=
  {| chart := chart p; selectedFunds := selectedFunds p; dataLoaded := dataLoaded p;
     dataType := dataType p; startDate := startDate p; endDate := endDate p;
     chartType := chartType p; chartTitle := chartTitle p; statsGrid := statsGrid p;
     dataInfoCard := dataInfoCard p; dataInfoGrid := dataInfoGrid p;
     fundSelection := v; loadingOverlay := loadingOverlay p;
     notification := notification p; downloads := downloads p; trace := trace p |}.

Definition set_loadingOverlay (v : string) (p : Page) : Page :=
  {| chart := chart p; selectedFunds := selectedFunds p; dataLoaded := dataLoaded p;
     dataType := dataType p; startDate := startDate p; endDate := endDate p;
     chartType := chartType p; chartTitle := chartTitle p; statsGrid := statsGrid p;
     dataInfoCard := dataInfoCard p; dataInfoGrid := dataInfoGrid p;
     fundSelection := fundSelection p; loadingOverlay := v;
     notification := notification p; downloads := downloads p; trace := trace p |}.

Definition set_notification (v : option (string * string)) (p : Page) : Page :=
  {| chart := chart p; selectedFunds := selectedFunds p; dataLoaded := dataLoaded p;
     dataType := dataType p; startDate := startDate p; endDate := endDate p;
     chartType := chartType p; chartTitle := chartTitle p; statsGrid := statsGrid p;
     dataInfoCard := dataInfoCard p; dataInfoGrid := dataInfoGrid p;
     fundSelection := fundSelection p; loadingOverlay := loadingOverlay p;
     notification := v; downloads := downloads p; trace := trace p |}.

Definition set_downloads (v : list (string * string)) (p : Page) : Page :=
  {| chart := chart p; selectedFunds := selectedFunds p; dataLoaded := dataLoaded p;
     dataType := dataType p; startDate := startDate p; endDate := endDate p;
     chartType := chartType p; chartTitle := chartTitle p; statsGrid := statsGrid p;
     dataInfoCard := dataInfoCard p; dataInfoGrid := dataInfoGrid p;
     fundSelection := fundSelection p; loadingOverlay := loadingOverlay p;
     notification := notification p; downloads := v; trace := trace p |}.

Definition set_trace (v : list event) (p : Page) : Page :=
  {| chart := chart p; selectedFunds := selectedFunds p; dataLoaded := dataLoaded p;
     dataType := dataType p; startDate := startDate p; endDate := endDate p;
     chartType := chartType p; chartTitle := chartTitle p; statsGrid := statsGrid p;
     dataInfoCard := dataInfoCard p; dataInfoGrid := dataInfoGrid p;
     fundSelection := fundSelection p; loadingOverlay := loadingOverlay p;
     notification := notification p; downloads := downloads p; trace := v |}.

(** Append an effect to the trace. *)
Definition log (e : event) (p : Page) : Page := set_trace (trace p ++ [e]) p.

(** The requests issued so far, oldest first. *)
Definition requests (p : Page) : list request :=
  omap (λ e, match e with EvRequest r => Some r | _ => None end) (trace p).

(** ** The host environment

    What the script takes from the JavaScript engine and the browser and
    does not define itself. *)
Class Host := {
  (** [x.toFixed(2)] *)
  toFixed2 : Q → string;
  (** a number inside a template literal *)
  numToString : Q → string;
  (** [new Date(s).toISOString().split('T')[0]]; [None] when the date is
      invalid and [toISOString] throws a RangeError *)
  isoDay : string → option string;
  (** [new Date(s).toLocaleDateString()] *)
  toLocaleDateString : string → string;
  (** [new Date(s).getFullYear()] inside a template literal *)
  getFullYear : string → string;
  (** [new Date().toISOString().split('T')[0]] *)
  today : string;
  (** [chart.toBase64Image('image/png', 1.0)] *)
  toBase64Image : Chart → string;
  (** [window.URL.createObjectURL(blob)] *)
  createObjectURL : string → string
}.

(** ** Completions and tasks *)

(** How an evaluation ends: with a value, or with a thrown error. *)
Inductive completion (A : Type) :=
| Normal (a : A)
| Abrupt (e : exn).
Arguments Normal {A} a.
Arguments Abrupt {A} e.

#[global] Instance completion_ret : MRet completion := @Normal.
#[global] Instance completion_bind : MBind completion :=
  λ A B f c, match c with Normal a => f a | Abrupt e => Abrupt e end.

(** A run of script code: it finishes, throws, reads the page, updates the
    page, or waits for the answer to the request it issued as the [i]-th
    of the session. *)
Inductive task (A : Type) : Type :=
| Ret (a : A)
| Throw (e : exn)
| Read (k : Page → task A)
| Update (f : Page → Page) (k : task A)
| Await (i : nat) (r : request) (k : outcome → task A).
Arguments Ret {A} a.
Arguments Throw {A} e.
Arguments Read {A} k.
Arguments Update {A} f k.
Arguments Await {A} i r k.

Fixpoint bind {A B} (t : task A) (f : A → task B) : task B :=
  match t with
  | Ret a => f a
  | Throw e => Throw e
  | Read k => Read (λ p, bind (k p) f)
  | Update g k => Update g (bind k f)
  | Await i r k => Await i r (λ o, bind (k o) f)
  end.

#[global] Instance task_ret : MRet task := @Ret.
#[global] Instance task_bind : MBind task := λ A B f t, bind t f.

(** [try { t } catch (error) { h error }] *)
Fixpoint catch {A} (t : task A) (h : exn → task A) : task A :=
  match t with
  | Ret a => Ret a
  | Throw e => h e
  | Read k => Read (λ p, catch (k p) h)
  | Update g k => Update g (catch k h)
  | Await i r k => Await i r (λ o, catch (k o) h)
  end.

(** [try { t } finally { f }] *)
Fixpoint finally {A} (t : task A) (f : task unit) : task A :=
  match t with
  | Ret a => bind f (λ _, Ret a)
  | Throw e => bind f (λ _, Throw e)
  | Read k => Read (λ p, finally (k p) f)
  | Update g k => Update g (finally k f)
  | Await i r k => Await i r (λ o, finally (k o) f)
  end.

(** [t(); g()] for an async [t] that is not awaited: [t] runs up to its
    first wait (or to its end), then the caller goes on with [g], and the
    rest of [t] runs when the answer arrives. *)
Fixpoint fork {A} (t : task A) (g : task unit) : task A :=
  match t with
  | Ret a => bind g (λ _, Ret a)
  | Throw e => bind g (λ _, Throw e)
  | Read k => Read (λ p, fork (k p) g)
  | Update f k => Update f (fork k g)
  | Await i r k => bind g (λ _, Await i r k)
  end.

Definition modify (f : Page → Page) : task unit := Update f (Ret tt).

(** A pure evaluation inside a task. *)
Definition lift {A} (c : completion A) : task A :=
  match c with
  | Normal a => Ret a
  | Abrupt e => Throw e
  end.

(** [xs.forEach(body)] *)
Fixpoint forEach {X} (xs : list X) (body : X → task unit) : task unit :=
  match xs with
  | [] => Ret tt
  | x :: rest => bind (body x) (λ _, forEach rest body)
  end.

(** [await fetch(...)]: the request leaves, then the task waits. *)
Definition fetch (r : request) : task outcome :=
  Read (λ p, Update (log (EvRequest r)) (Await (length (requests p)) r Ret)).

(** Run a task to its end against a network that answers the [i]-th
    request [r] with [net i r]. *)
Fixpoint run {A} (net : nat → request → outcome) (t : task A) (p : Page)
  : Page * completion A :=
  match t with
  | Ret a => (p, Normal a)
  | Throw e => (p, Abrupt e)
  | Read k => run net (k p) p
  | Update f k => run net k (f p)
  | Await i r k => run net (k (net i r)) p
  end.

(** How far a task gets before it has to wait: to its end, or to the
    request whose answer it needs. *)
Inductive progress (A : Type) :=
| Done (p : Page) (c : completion A)
| Waiting (p : Page) (i : nat) (r : request) (k : outcome → task A).
Arguments Done {A} p c.
Arguments Waiting {A} p i r k.

Fixpoint prefix {A} (t : task A) (p : Page) : progress A :=
  match t with
  | Ret a => Done p (Normal a)
  | Throw e => Done p (Abrupt e)
  | Read k => prefix (k p) p
  | Update f k => prefix k (f p)
  | Await i r k => Waiting p i r k
  end.

(** ** The script *)

Section Script.
Context {host : Host}.

(** The template-literal text of a possibly missing number. *)
Definition show (f : field Q) : string :=
  match f with
  | Absent => "undefined"
  | Null => "null"
  | Val q => numToString q
  end.

(** [x.toFixed(2)] on a property that may be missing. *)
Definition toFixed (f : field Q) : completion string :=
  match f with
  | Val q => Normal (toFixed2 q)
  | Null => Abrupt (Exn "TypeError" "Cannot read properties of null (reading 'toFixed')")
  | Absent => Abrupt (Exn "TypeError" "Cannot read properties of undefined (reading 'toFixed')")
  end.

(** The text of an optional string inside a template literal. *)
Definition show_str (s : option string) : string := default "undefined" s.

Definition fundColors : gmap string string :=
  <["IFund" := "#9c27b0"]> (<["SFund" := "#f44336"]> (<["CFund" := "#ff9800"]>
  (<["FFund" := "#4caf50"]> (<["GFund" := "#2196f3"]> ∅)))).

Definition allFunds : list string := ["GFund"; "FFund"; "CFund"; "SFund"; "IFund"].

(** [Set.prototype.add] and [Set.prototype.delete] on a set kept in
    insertion order. *)
Definition set_add (x : string) (s : list string) : list string :=
  if bool_decide (x ∈ s) then s else s ++ [x].

Definition set_delete (x : string) (s : list string) : list string :=
  filter (λ y, y ≠ x) s.

(** *** Utility functions *)

Definition showLoading (shown : bool) : task unit :=
  modify (λ p, log (EvLoading shown)
                 (set_loadingOverlay (if shown then "flex" else "none") p)).

(** The existing banner, if any, is removed and the new one appended. *)
Definition showNotification (msg type : string) : task unit :=
  modify (λ p, log (EvNotify msg type) (set_notification (Some (msg, type)) p)).

Definition consoleError (label : string) (e : exn) : task unit :=
  modify (log (EvConsoleError label e)).

(** *** API functions *)

Definition API_BASE_URL : string := "http://localhost:5000/api".

(** The [options] object and the URL handed to [fetch]. *)
Definition requestOptions (endpoint method : string) (data : payload) : request :=
  match data with
  | FormData _ => {| url := API_BASE_URL +:+ endpoint; method := method;
                     content_type := None; req_body := data |}
  | Json _ => {| url := API_BASE_URL +:+ endpoint; method := method;
                 content_type := Some "application/json"; req_body := data |}
  | NoData => {| url := API_BASE_URL +:+ endpoint; method := method;
                 content_type := None; req_body := NoData |}
  end.

(** What [apiCall] makes of the settled [fetch]: the parsed body, or the
    error it throws. *)
Definition readResponse (o : outcome) : completion body :=
  match o with
  | Rejected e => Abrupt e
  | Resolved resp =>
      match json resp with
      | inl e => Abrupt e
      | inr result =>
          if negb (ok resp)
          then Abrupt (Exn "Error"
                         (match message result with
                          | Some m => if String.eqb m "" then "API request failed" else m
                          | None => "API request failed"
                          end))
          else Normal result
      end
  end.

Definition apiCall (endpoint method : string) (data : payload) : task body :=
  finally
    (catch
       (showLoading true;;
        o ← fetch (requestOptions endpoint method data);
        lift (readResponse o))
       (λ error,
          showNotification ("Error: " +:+ exn_message error) "error";;
          Throw error))
    (showLoading false).

(** *** Date inputs *)

Definition toISODay (s : string) : completion string :=
  match isoDay s with
  | Some d => Normal d
  | None => Abrupt (Exn "RangeError" "Invalid time value")
  end.

Definition updateDateInputs (dateRange : date_range_t) : task unit :=
  let startDate_ := start dateRange in
  let endDate_ := end_ dateRange in
  (* Set min/max values *)
  d ← lift (toISODay startDate_);
  modify (λ p, set_startDate {| di_min := d; di_max := di_max (startDate p);
                                di_value := di_value (startDate p) |} p);;
  d ← lift (toISODay endDate_);
  modify (λ p, set_startDate {| di_min := di_min (startDate p); di_max := d;
                                di_value := di_value (startDate p) |} p);;
  d ← lift (toISODay startDate_);
  modify (λ p, set_endDate {| di_min := d; di_max := di_max (endDate p);
                              di_value := di_value (endDate p) |} p);;
  d ← lift (toISODay endDate_);
  modify (λ p, set_endDate {| di_min := di_min (endDate p); di_max := d;
                              di_value := di_value (endDate p) |} p);;
  (* Set default values if not already set *)
  Read (λ p,
    if String.eqb (di_value (startDate p)) ""
    then d ← lift (toISODay startDate_);
         modify (λ p, set_startDate {| di_min := di_min (startDate p);
                                       di_max := di_max (startDate p);
                                       di_value := d |} p)
    else Ret tt);;
  Read (λ p,
    if String.eqb (di_value (endDate p)) ""
    then d ← lift (toISODay endDate_);
         modify (λ p, set_endDate {| di_min := di_min (endDate p);
                                     di_max := di_max (endDate p);
                                     di_value := d |} p)
    else Ret tt).

(** *** Data info display (the later declaration, which is the one in
    force: a function declared twice keeps its last body) *)

Definition coverageClass (a : availability) : string :=
  match coverage_percentage a with
  | Val q => if Qle_bool 80 q then "success"
             else if Qle_bool 50 q then "warning" else "error"
  | Null | Absent => "error"
  end.

Definition coverageRow (fund dateRangeInfo : string) (a : availability) : node :=
  Elem "div" "" "display: flex; justify-content: space-between; margin: 2px 0; font-size: 0.8em;"
    [ Elem "span" "" ("color: " +:+ show_str (fundColors !! fund))
        [Text (fund +:+ dateRangeInfo +:+ ":")];
      Elem "span" ("stat-value " +:+ coverageClass a) "font-size: 0.8em;"
        [Text (show (coverage_percentage a) +:+ "%")] ].

Definition infoItem (label value : string) : node :=
  Elem "div" "info-item" ""
    [ Elem "span" "info-label" "" [Text label];
      Elem "span" "info-value" "" [Text value] ].

Definition pricesAvailabilityHTML (info : dataset_info) : list node :=
  match fund_availability info with
  | Some entries =>
      [ Elem "div" "" "margin-top: 10px;"
          (Elem "strong" "" "" [Text "Fund Coverage:"]
           :: map (λ fa, coverageRow (fst fa) "" (snd fa)) entries) ]
  | None => []
  end.

Definition returnsAvailabilityHTML (info : dataset_info) : list node :=
  match fund_availability info with
  | Some entries =>
      [ Elem "div" "" "margin-top: 10px;"
          (Elem "strong" "" "" [Text "Fund Coverage:"]
           :: map (λ fa,
                 let dateRangeInfo :=
                   match first_data_date (snd fa), last_data_date (snd fa) with
                   | Some f, Some l =>
                       if negb (String.eqb f "") && negb (String.eqb l "")
                       then " (" +:+ getFullYear f +:+ "-" +:+ getFullYear l +:+ ")"
                       else ""
                   | _, _ => ""
                   end in
                 coverageRow (fst fa) dateRangeInfo (snd fa)) entries) ]
  | None => []
  end.

(** The card built from a dataset's info; reading [date_range.start] of a
    missing [date_range] throws. *)
Definition infoCard (title : string) (info : dataset_info)
    (fundAvailabilityHTML : list node) : completion node :=
  match date_range info with
  | None => Abrupt (Exn "TypeError" "Cannot read properties of undefined (reading 'start')")
  | Some dr =>
      Normal (Elem "div" "data-info-card" ""
             ([ Elem "h4" "" "" [Text title];
                infoItem "Records:" (show (record_count info));
                infoItem "From:" (toLocaleDateString (start dr));
                infoItem "To:" (toLocaleDateString (end_ dr)) ]
              ++ fundAvailabilityHTML))
  end.

Definition dateRangeOf (info : dataset_info) : completion date_range_t :=
  match date_range info with
  | Some dr => Normal dr
  | None => Abrupt (Exn "TypeError" "Cannot read properties of undefined (reading 'start')")
  end.

Definition updateDataInfoDisplay (info : body) : task unit :=
  if negb (prices_loaded info) && negb (returns_loaded info)
  then modify (set_dataInfoCard "none")
  else
    modify (set_dataInfoCard "block");;
    modify (set_dataInfoGrid []);;
    match prices_loaded info, prices_info info with
    | true, Some pinfo =>
        pricesCard ← lift (infoCard "📈 Prices Data" pinfo (pricesAvailabilityHTML pinfo));
        modify (λ p, set_dataInfoGrid (dataInfoGrid p ++ [pricesCard]) p);;
        (* Update date inputs *)
        dr ← lift (dateRangeOf pinfo);
        updateDateInputs dr
    | _, _ => Ret tt
    end;;
    match returns_loaded info, returns_info info with
    | true, Some rinfo =>
        returnsCard ← lift (infoCard "📊 Returns Data" rinfo (returnsAvailabilityHTML rinfo));
        modify (λ p, set_dataInfoGrid (dataInfoGrid p ++ [returnsCard]) p)
    | _, _ => Ret tt
    end.

Definition refreshDataInfo : task unit :=
  catch
    (info ← apiCall "/data-info" "GET" NoData;
     updateDataInfoDisplay info)
    (λ error, consoleError "Error refreshing data info:" error).

(** *** Statistics (the later declaration, the one in force) *)

Definition statsError : list node :=
  [Elem "div" "error" "" [Text "Error loading statistics"]].

Definition statsEmpty : list node :=
  [Elem "div" "loading" "" [Text "No data available for selected range"]].

(** [stats.change || 0] *)
Definition changeOrZero (f : field Q) : Q :=
  match f with
  | Val q => if Qeq_bool q 0 then 0%Q else q
  | Null | Absent => 0%Q
  end.

(** [stats.min !== null] *)
Definition notNull (f : field Q) : bool :=
  match f with
  | Null => false
  | Absent | Val _ => true
  end.

(** [stats.current === null || stats.current === undefined] *)
Definition nullOrUndefined (f : field Q) : bool :=
  match f with
  | Null | Absent => true
  | Val _ => false
  end.

(** The content given to [statCard.innerHTML] for one fund. *)
Definition statCard (dataType_ fund : string) (stats : stat_entry)
  : completion node :=
  (* Handle null/undefined values for funds with no data *)
  if nullOrUndefined (current stats)
  then
    Normal (Elem "div" "stat-card" ""
           [ Elem "div" "stat-label" "" [Text fund];
             Elem "div" "stat-value neutral" ("color: " +:+ show_str (fundColors !! fund))
               [Text "No Data"];
             Elem "div" "" "font-size: 0.7em; color: var(--text-muted); margin-top: 5px;"
               [Text (show (data_coverage stats) +:+ "% coverage")] ])
  else
    let change_ := changeOrZero (change stats) in
    let changeClass :=
      if negb (Qle_bool change_ 0) then "positive"
      else if negb (Qle_bool 0 change_) then "negative" else "neutral" in
    let changeSymbol := if negb (Qle_bool change_ 0) then "+" else "" in
    cur ← toFixed (current stats);
    let chg := toFixed2 change_ in
    range ← (if notNull (min stats)
             then lo ← toFixed (min stats);
                  hi ← toFixed (max stats);
                  Normal [ Elem "div" ""
                          "font-size: 0.7em; color: var(--text-muted); margin-top: 2px;"
                          [Text ("Range: " +:+ lo +:+ " - " +:+ hi)] ]
             else Normal []);
    Normal (Elem "div" "stat-card" ""
           ([ Elem "div" "stat-label" "" [Text fund];
              Elem "div" "stat-value" ("color: " +:+ show_str (fundColors !! fund))
                [Text (if String.eqb dataType_ "prices"
                       then "$" +:+ cur else cur +:+ "%")];
              Elem "div" ("stat-value " +:+ changeClass)
                "font-size: 0.9em; margin-top: 5px;"
                [Text (changeSymbol +:+ chg +:+
                       (if String.eqb dataType_ "prices" then "" else "%"))];
              Elem "div" "" "font-size: 0.7em; color: var(--text-muted); margin-top: 5px;"
                [Text ("Coverage: " +:+ show (data_coverage stats) +:+ "% (" +:+
                       show (count stats) +:+ "/" +:+ show (total_periods stats) +:+ ")")] ]
            ++ range)).

Definition currentQuery (p : Page) : query :=
  {| data_type := dataType p;
     start_date := di_value (startDate p);
     end_date := di_value (endDate p);
     funds := selectedFunds p |}.

Definition updateStatistics : task unit :=
  catch
    (Read (λ p0,
       let dataType_ := dataType p0 in
       statsData ← apiCall "/statistics" "POST" (Json (currentQuery p0));
       if negb (success statsData)
       then modify (set_statsGrid statsError)
       else
         modify (set_statsGrid []);;
         match statistics statsData with
         | None =>
             Throw (Exn "TypeError" "Cannot convert undefined or null to object")
         | Some statistics_ =>
             if Nat.eqb (size statistics_) 0
             then modify (set_statsGrid statsEmpty)
             else
               (* Create stat cards for each fund *)
               Read (λ p,
                 forEach (selectedFunds p) (λ fund,
                   match statistics_ !! fund with
                   | Some stats =>
                       card ← lift (statCard dataType_ fund stats);
                       modify (λ p, set_statsGrid (statsGrid p ++ [card]) p)
                   | None => Ret tt
                   end))
         end))
    (λ error,
       consoleError "Error updating statistics:" error;;
       modify (set_statsGrid statsError)).

(** *** Fund selection *)

Definition setupFundSelection : task unit :=
  modify (set_fundSelection []);;
  forEach allFunds (λ fund,
    modify (λ p, set_fundSelection
                   (fundSelection p ++
                    [ {| cb_value := fund; cb_checked := true;
                         cb_color := show_str (fundColors !! fund);
                         cb_label_checked := true |} ]) p)).

(** *** Chart *)

Definition initializeChart : task unit :=
  modify (set_chart (Some {| labels := []; datasets := []; y_title := "Value" |})).

(** The object built for one dataset by the [map] callback of
    [updateChart]: the spread copy with the presentation keys set. *)
Definition decorate (chartType_ : string) (dataset : gmap string jsval)
  : gmap string jsval :=
  let borderColor := default VUndef (dataset !! "borderColor") in
  <["pointBorderColor" := borderColor]>
  (<["pointBackgroundColor" := borderColor]>
  (<["borderWidth" := VNum 2]>
  (<["pointHoverRadius" := VNum 6]>
  (<["pointRadius" := VNum 2]>
  (<["tension" := VNum (1 # 10)]>
  (<["fill" := VBool (String.eqb chartType_ "area")]> dataset)))))).

Definition guardFails (p : Page) : bool :=
  (String.eqb (dataType p) "prices" && negb (prices (dataLoaded p)))
  || (String.eqb (dataType p) "returns" && negb (returns (dataLoaded p))).

Definition updateChart : task unit :=
  catch
    (Read (λ p0,
       let dataType_ := dataType p0 in
       let chartType_ := chartType p0 in
       (* Check if relevant data is loaded *)
       if guardFails p0
       then showNotification
              ("No " +:+ dataType_ +:+ " data loaded. Please upload a CSV file first.")
              "warning"
       else
         (* Get chart data from API *)
         chartData ← apiCall "/chart-data" "POST" (Json (currentQuery p0));
         if negb (success chartData)
         then showNotification
                ("Error getting chart data: " +:+ show_str (message chartData)) "error"
         else
           (* Update chart title *)
           modify (set_chartTitle
                     ("📈 " +:+ (if String.eqb dataType_ "prices"
                                  then "Share Price" else "Return Rate") +:+ " Analysis"));;
           match data chartData with
           | None =>
               Throw (Exn "TypeError"
                        "Cannot read properties of undefined (reading 'datasets')")
           | Some d =>
               (* Prepare datasets for Chart.js *)
               let datasets_ := map (decorate chartType_) (cd_datasets d) in
               (* Update chart *)
               Read (λ p,
                 match chart p with
                 | None =>
                     Throw (Exn "TypeError"
                              "Cannot read properties of null (reading 'data')")
                 | Some _ =>
                     modify (set_chart
                               (Some {| labels := cd_labels d;
                                        datasets := datasets_;
                                        (* Update Y-axis title *)
                                        y_title := if String.eqb dataType_ "prices"
                                                   then "Price ($)"
                                                   else "Return Rate (%)" |}));;
                     (* Update statistics *)
                     updateStatistics
                 end)
           end))
    (λ error,
       consoleError "Error updating chart:" error;;
       showNotification "Error updating chart. Please try again." "error").

(** The change handler of a fund checkbox, after the browser has put the
    box in state [checked]. *)
Definition toggleFund (fund : string) (checked : bool) : task unit :=
  modify (λ p, set_fundSelection
                 (map (λ c, if String.eqb (cb_value c) fund
                            then {| cb_value := cb_value c; cb_checked := checked;
                                    cb_color := cb_color c;
                                    cb_label_checked := checked |}
                            else c) (fundSelection p)) p);;
  modify (λ p, set_selectedFunds
                 (if checked then set_add fund (selectedFunds p)
                  else set_delete fund (selectedFunds p)) p);;
  updateChart.

(** *** Upload functions *)

Definition uploadPricesFile (file : string) : task unit :=
  catch
    (result ← apiCall "/upload/prices" "POST" (FormData file);
     if success result
     then
       modify (λ p, set_dataLoaded
                      {| prices := true; returns := returns (dataLoaded p) |} p);;
       showNotification "Prices data loaded successfully!" "success";;
       refreshDataInfo;;
       updateChart
     else
       showNotification ("Error loading prices: " +:+ show_str (message result)) "error")
    (λ error, consoleError "Error uploading prices file:" error).

Definition uploadReturnsFile (file : string) : task unit :=
  catch
    (result ← apiCall "/upload/returns" "POST" (FormData file);
     if success result
     then
       modify (λ p, set_dataLoaded
                      {| prices := prices (dataLoaded p); returns := true |} p);;
       showNotification "Returns data loaded successfully!" "success";;
       refreshDataInfo;;
       updateChart
     else
       showNotification ("Error loading returns: " +:+ show_str (message result)) "error")
    (λ error, consoleError "Error uploading returns file:" error).

(** Load sample data *)
Definition loadSampleData : task unit :=
  catch
    (result ← apiCall "/load-sample-data" "POST" NoData;
     if success result
     then
       modify (λ p, set_dataLoaded
                      {| prices := true; returns := returns (dataLoaded p) |} p);;
       modify (λ p, set_dataLoaded
                      {| prices := prices (dataLoaded p); returns := true |} p);;
       showNotification "Sample data loaded successfully!" "success";;
       refreshDataInfo;;
       updateChart
     else
       showNotification
         ("Error loading sample data: " +:+ show_str (message result)) "error")
    (λ error, consoleError "Error loading sample data:" error).

(** The drop and change listeners of [setupFileUpload]: an empty file list
    does nothing, otherwise the first file goes to the handler. *)
Definition filesChosen (handler : string → task unit) (files : list string)
  : task unit :=
  match files with
  | f :: _ => handler f
  | [] => Ret tt
  end.

(** *** Reset and export *)

Definition resetFilters : task unit :=
  (* Reset fund selection *)
  modify (set_selectedFunds allFunds);;
  setupFundSelection;;
  (* Reset other controls *)
  modify (set_dataType "prices");;
  modify (set_chartType "line");;
  (* Reset date ranges to full range *)
  refreshDataInfo;;
  fork updateChart (showNotification "Filters reset successfully!" "success").

Definition exportChart : task unit :=
  Read (λ p0,
    match chart p0 with
    | None => showNotification "No chart available to export" "error"
    | Some c =>
        catch
          (modify (λ p, set_downloads
                          (downloads p ++
                           [(dataType p +:+ "_chart_" +:+ today +:+ ".png",
                             toBase64Image c)]) p);;
           showNotification "Chart exported successfully!" "success")
          (λ error,
             consoleError "Error exporting chart:" error;;
             showNotification "Error exporting chart" "error")
    end).

Definition exportData : task unit :=
  finally
    (catch
       (Read (λ p0,
          let dataType_ := dataType p0 in
          (* Check if relevant data is loaded *)
          if guardFails p0
          then showNotification ("No " +:+ dataType_ +:+ " data loaded to export") "warning"
          else
            showLoading true;;
            o ← fetch {| url := API_BASE_URL +:+ "/export"; method := "POST";
                         content_type := Some "application/json";
                         req_body := Json (currentQuery p0) |};
            match o with
            | Rejected e => Throw e
            | Resolved resp =>
                if negb (ok resp)
                then Throw (Exn "Error" "Export failed")
                else
                  (* Handle file download *)
                  modify (λ p, set_downloads
                                 (downloads p ++
                                  [(dataType_ +:+ "_export_" +:+ today +:+ ".csv",
                                    createObjectURL (blob resp))]) p);;
                  showNotification "Data exported successfully!" "success"
            end))
       (λ error,
          consoleError "Error exporting data:" error;;
          showNotification "Error exporting data" "error"))
    (showLoading false).

(** *** Initialisation and the events of a session *)

Definition init : task unit :=
  setupFundSelection;;
  initializeChart;;
  refreshDataInfo.

(** What can happen to the page: the load, the listeners installed by
    [setupEventListeners], [setupFileUpload] and [setupFundSelection], and
    the buttons of the markup. *)
Inductive op :=
| Init
| PricesFiles (files : list string)
| ReturnsFiles (files : list string)
| LoadSampleData
| RefreshDataInfo
| ChangeDataType (v : string)
| ChangeStartDate (v : string)
| ChangeEndDate (v : string)
| ChangeChartType (v : string)
| ToggleFund (fund : string) (checked : bool)
| ResetFilters
| ExportChart
| ExportData.

Definition handle (o : op) : task unit :=
  match o with
  | Init => init
  | PricesFiles files => filesChosen uploadPricesFile files
  | ReturnsFiles files => filesChosen uploadReturnsFile files
  | LoadSampleData => loadSampleData
  | RefreshDataInfo => refreshDataInfo
  | ChangeDataType v => modify (set_dataType v);; updateChart
  | ChangeStartDate v =>
      modify (λ p, set_startDate {| di_min := di_min (startDate p);
                                    di_max := di_max (startDate p);
                                    di_value := v |} p);;
      updateChart
  | ChangeEndDate v =>
      modify (λ p, set_endDate {| di_min := di_min (endDate p);
                                  di_max := di_max (endDate p);
                                  di_value := v |} p);;
      updateChart
  | ChangeChartType v => modify (set_chartType v);; updateChart
  | ToggleFund fund checked => toggleFund fund checked
  | ResetFilters => resetFilters
  | ExportChart => exportChart
  | ExportData => exportData
  end.

(** *** The date bounds as the specification words them

    The range of the dataset that the data-type selector names. *)
Definition activeRange (dataType_ : string) (info : body) : option date_range_t :=
  if String.eqb dataType_ "prices"
  then (if prices_loaded info then prices_info info ≫= date_range else None)
  else if String.eqb dataType_ "returns"
  then (if returns_loaded info then returns_info info ≫= date_range else None)
  else None.

(** Both date inputs are bounded to the days of [dr]. *)
Definition boundedTo (dr : date_range_t) (p : Page) : Prop :=
  isoDay (start dr) = Some (di_min (startDate p)) ∧
  isoDay (end_ dr) = Some (di_max (startDate p)) ∧
  isoDay (start dr) = Some (di_min (endDate p)) ∧
  isoDay (end_ dr) = Some (di_max (endDate p)).

(** "After a refresh the bounds are those of the loaded dataset for the
    active data type." *)
Definition boundsFollowDataType (net : nat → request → outcome) (p : Page) : Prop :=
  ∀ info dr,
    readResponse (net (length (requests p)) (requestOptions "/data-info" "GET" NoData))
      = Normal info →
    activeRange (dataType p) info = Some dr →
    boundedTo dr (run net refreshDataInfo p).1.

(** A session: the events of the page, each run to its end. *)
Definition session (net : nat → request → outcome) (ops : list op) (p : Page)
  : Page :=
  foldl (λ q o, (run net (handle o) q).1) p ops.

End Script.

(** ** Guarantees

    [guar G t]: every update [t] can make, whatever it reads and whatever
    the network answers, takes a page to a [G]-related one. *)
Fixpoint guar {A} (G : Page → Page → Prop) (t : task A) : Prop :=
  match t with
  | Ret _ => True
  | Throw _ => True
  | Read k => ∀ p, guar G (k p)
  | Update f k => (∀ p, G p (f p)) ∧ guar G k
  | Await _ _ k => ∀ o, guar G (k o)
  end.

Definition flagsMonotone (p p' : Page) : Prop :=
  (prices (dataLoaded p) = true → prices (dataLoaded p') = true) ∧
  (returns (dataLoaded p) = true → returns (dataLoaded p') = true).

(** The filter and the availability flags are the same. *)
Definition sameFilter (p p' : Page) : Prop :=
  selectedFunds p' = selectedFunds p ∧ dataType p' = dataType p ∧
  chartType p' = chartType p ∧ startDate p' = startDate p ∧
  endDate p' = endDate p ∧ dataLoaded p' = dataLoaded p ∧
  fundSelection p' = fundSelection p.

Definition sameChart (p p' : Page) : Prop := chart p' = chart p.

Definition sameRequests (p p' : Page) : Prop := requests p' = requests p.

Definition sameLoaded (p p' : Page) : Prop := dataLoaded p' = dataLoaded p.

(** The date inputs keep their [min] and [max]. *)
Definition sameBounds (p p' : Page) : Prop :=
  di_min (startDate p') = di_min (startDate p) ∧
  di_max (startDate p') = di_max (startDate p) ∧
  di_min (endDate p') = di_min (endDate p) ∧
  di_max (endDate p') = di_max (endDate p).

Definition samePrices (p p' : Page) : Prop :=
  prices (dataLoaded p') = prices (dataLoaded p).

Definition sameReturns (p p' : Page) : Prop :=
  returns (dataLoaded p') = returns (dataLoaded p).

(** Like [sameFilter], but the date inputs may change. *)
Definition sameSelection (p p' : Page) : Prop :=
  selectedFunds p' = selectedFunds p ∧ dataType p' = dataType p ∧
  chartType p' = chartType p ∧ dataLoaded p' = dataLoaded p ∧
  fundSelection p' = fundSelection p ∧ chart p' = chart p.

(** ** Pages after a call

    The page [apiCall] leaves behind when it sent [r] and ended in [c],
    where [hook] is what the caller of an un-awaited function did to the
    page while the request was under way. *)
Definition sentCall (r : request) (p : Page) : Page :=
  log (EvRequest r) (log (EvLoading true) (set_loadingOverlay "flex" p)).

Definition settleCall (c : completion body) (p : Page) : Page :=
  let told :=
    match c with
    | Normal _ => p
    | Abrupt e =>
        log (EvNotify ("Error: " +:+ exn_message e) "error")
          (set_notification (Some ("Error: " +:+ exn_message e, "error")) p)
    end in
  log (EvLoading false) (set_loadingOverlay "none" told).

Definition afterCallThen (hook : Page → Page) (r : request) (c : completion body)
    (p : Page) : Page :=
  settleCall c (hook (sentCall r p)).

Definition afterCall (r : request) (c : completion body) (p : Page) : Page :=
  afterCallThen (λ q, q) r c p.

(** The page as the synchronous part of [resetFilters] leaves it. *)
Definition resetControls (p : Page) : Page :=
  set_chartType "line"
    (set_dataType "prices"
       (set_fundSelection
          (map (λ fund, {| cb_value := fund; cb_checked := true;
                           cb_color := show_str (fundColors !! fund);
                           cb_label_checked := true |}) allFunds)
          (set_selectedFunds allFunds p))).

(** The page after the [catch] block of [updateChart] has handled [e]. *)
Definition chartFailed (e : exn) (p : Page) : Page :=
  log (EvNotify "Error updating chart. Please try again." "error")
    (set_notification (Some ("Error updating chart. Please try again.", "error"))
       (log (EvConsoleError "Error updating chart:" e) p)).

(** The keys the chart renderer sets on every dataset. *)
Definition presentationKeys : list string :=
  ["fill"; "tension"; "pointRadius"; "pointHoverRadius"; "borderWidth";
   "pointBackgroundColor"; "pointBorderColor"].

(** The number of points of a series: the length of its [data] array. *)
Definition seriesLength (dataset : gmap string jsval) : option nat :=
  match dataset !! "data" with
  | Some (VArr values) => Some (length values)
  | _ => None
  end.

(** [sub] occurs in [s]. *)
Definition contains (s sub : string) : Prop :=
  ∃ pre post, s = pre +:+ sub +:+ post.

(** Whether an upload went wrong: the call failed, or the service
    answered without [success]. *)
Definition uploadRefused (o : outcome) : bool :=
  match readResponse o with
  | Normal b => negb (success b)
  | Abrupt _ => true
  end.

Section Outcomes.
Context {host : Host}.

(** The page after [updateChart] has dealt with the end [c] of its call,
    for the filter read on [p0] before the call and the page [p1] the call
    left. *)
Definition chartSettled (net : nat → request → outcome) (p0 : Page)
    (c : completion body) (p1 : Page) : Page :=
  match c with
  | Abrupt e => chartFailed e p1
  | Normal b =>
      if success b
      then
        let p2 :=
          set_chartTitle
            ("📈 " +:+ (if String.eqb (dataType p0) "prices"
                         then "Share Price" else "Return Rate") +:+ " Analysis") p1 in
        match data b, chart p1 with
        | Some d, Some _ =>
            (run net updateStatistics
               (set_chart
                  (Some {| labels := cd_labels d;
                           datasets := map (decorate (chartType p0)) (cd_datasets d);
                           y_title := if String.eqb (dataType p0) "prices"
                                      then "Price ($)" else "Return Rate (%)" |})
                  p2)).1
        | Some d, None =>
            chartFailed
              (Exn "TypeError" "Cannot read properties of null (reading 'data')") p2
        | None, _ =>
            chartFailed
              (Exn "TypeError"
                 "Cannot read properties of undefined (reading 'datasets')") p2
        end
      else
        log (EvNotify ("Error getting chart data: " +:+ show_str (message b)) "error")
          (set_notification
             (Some ("Error getting chart data: " +:+ show_str (message b), "error"))
             p1)
  end.

End Outcomes.

(** ** A host and pages for examples

    An engine that reads date-only strings ([YYYY-MM-DD], which JavaScript
    takes as UTC midnight, so that the ISO day is the string itself) and
    rejects every other date text; numbers print as exact decimals. *)
Definition digits (n : N) : string := NilZero.string_of_uint (N.to_uint n).

Definition pad2 (n : N) : string :=
  if (n <? 10)%N then "0" +:+ digits n else digits n.

Definition demoToFixed2 (q : Q) : string :=
  let num := Qnum q in
  let den := Zpos (Qden q) in
  let n := ((2 * Z.abs num * 100 + den) / (2 * den))%Z in
  (if (num <? 0)%Z then "-" else "") +:+
  digits (Z.to_N (n / 100)) +:+ "." +:+ pad2 (Z.to_N (n mod 100)).

Fixpoint fraction (fuel : nat) (num den : Z) : string :=
  match fuel with
  | O => ""
  | S fuel' =>
      if (num =? 0)%Z then ""
      else digits (Z.to_N (num * 10 / den)) +:+ fraction fuel' ((num * 10) mod den)%Z den
  end.

Definition demoNumToString (q : Q) : string :=
  let num := Z.abs (Qnum q) in
  let den := Zpos (Qden q) in
  (if (Qnum q <? 0)%Z then "-" else "") +:+
  digits (Z.to_N (num / den)) +:+
  (if (num mod den =? 0)%Z then "" else "." +:+ fraction 17 (num mod den)%Z den).

Definition digitValue (a : ascii) : option nat :=
  let n := nat_of_ascii a in
  if (48 <=? n)%nat && (n <=? 57)%nat then Some (n - 48)%nat else None.

Definition demoIsoDay (s : string) : option string :=
  match String.list_ascii_of_string s with
  | [y1; y2; y3; y4; dash1; m1; m2; dash2; d1; d2] =>
      match digitValue y1, digitValue y2, digitValue y3, digitValue y4,
            digitValue m1, digitValue m2, digitValue d1, digitValue d2 with
      | Some _, Some _, Some _, Some _, Some a, Some b, Some c, Some d =>
          let month := (10 * a + b)%nat in
          let day := (10 * c + d)%nat in
          if Ascii.eqb dash1 "-" && Ascii.eqb dash2 "-"
             && (1 <=? month)%nat && (month <=? 12)%nat
             && (1 <=? day)%nat && (day <=? 28)%nat
          then Some s else None
      | _, _, _, _, _, _, _, _ => None
      end
  | _ => None
  end.

Definition demoHost : Host := {|
  toFixed2 := demoToFixed2;
  numToString := demoNumToString;
  isoDay := demoIsoDay;
  toLocaleDateString := λ s, s;
  getFullYear := λ s, String.substring 0 4 s;
  today := "2024-03-05";
  toBase64Image := λ _, "data:image/png;base64,";
  createObjectURL := λ b, "blob:" +:+ b
|}.

Definition emptyInput : date_input := {| di_min := ""; di_max := ""; di_value := "" |}.

(** The page once [init] has run and nothing is loaded. *)
Definition readyPage : Page := {|
  chart := Some {| labels := []; datasets := []; y_title := "Value" |};
  selectedFunds := allFunds;
  dataLoaded := {| prices := false; returns := false |};
  dataType := "prices";
  startDate := emptyInput;
  endDate := emptyInput;
  chartType := "line";
  chartTitle := "";
  statsGrid := [];
  dataInfoCard := "none";
  dataInfoGrid := [];
  fundSelection := [];
  loadingOverlay := "none";
  notification := None;
  downloads := [];
  trace := []
|}.

Definition emptyBody : body := {|
  success := false; message := None; data := None; statistics := None;
  prices_loaded := false; returns_loaded := false;
  prices_info := None; returns_info := None
|}.

Definition replyJson (b : body) : outcome :=
  Resolved {| ok := true; json := inr b; blob := "" |}.

Definition loadedPage : Page :=
  set_dataLoaded {| prices := true; returns := true |} readyPage.

Definition demoSeries (name color : string) : gmap string jsval :=
  <["borderColor" := VStr color]>
  (<["data" := VArr [VNum 10; VNull; VNum 12]]>
  (<["label" := VStr name]> ∅)).

Definition demoChart : chart_data := {|
  cd_labels := ["2020-01-01"; "2020-01-02"; "2020-01-03"];
  cd_datasets := [demoSeries "GFund" "#2196f3"; demoSeries "FFund" "#4caf50"]
|}.

(** A service that answers chart-data with [demoChart] and every other
    route with a bare [success]. *)
Definition demoService : nat → request → outcome :=
  λ _ r,
    if String.eqb (url r) "http://localhost:5000/api/chart-data"
    then replyJson {| success := true; message := None; data := Some demoChart;
                      statistics := None; prices_loaded := false;
                      returns_loaded := false; prices_info := None;
                      returns_info := None |}
    else replyJson {| success := true; message := None; data := None;
                      statistics := Some ∅; prices_loaded := false;
                      returns_loaded := false; prices_info := None;
                      returns_info := None |}.

Definition pricesRange : date_range_t :=
  {| start := "2020-01-02"; end_ := "2020-12-28" |}.

Definition returnsRange : date_range_t :=
  {| start := "2019-01-03"; end_ := "2021-06-28" |}.

Definition pricesInfo : dataset_info :=
  {| record_count := Val 250; date_range := Some pricesRange;
     fund_availability := None |}.

Definition returnsInfo : dataset_info :=
  {| record_count := Val 600; date_range := Some returnsRange;
     fund_availability := None |}.

Definition infoBody : body := {|
  success := true; message := None; data := None; statistics := None;
  prices_loaded := true; returns_loaded := true;
  prices_info := Some pricesInfo; returns_info := Some returnsInfo
|}.

(** A service with both datasets loaded, over different date ranges. *)
Definition infoService : nat → request → outcome :=
  λ i r,
    if String.eqb (url r) "http://localhost:5000/api/data-info"
    then replyJson infoBody
    else demoService i r.

(** The page with both datasets loaded and returns selected. *)
Definition returnsPage : Page := set_dataType "returns" loadedPage.

(** A statistics entry with a current value and no [min] key. *)
Definition noMinEntry : stat_entry := {|
  current := Val (21 # 2); change := Null; min := Absent; max := Absent;
  count := Val 3; total_periods := Val 3; data_coverage := Val 100
|}.

(** A service whose statistics hold [noMinEntry] for the G fund. *)
Definition noMinService : nat → request → outcome :=
  λ i r,
    if String.eqb (url r) "http://localhost:5000/api/statistics"
    then replyJson {| success := true; message := None; data := None;
                      statistics := Some (<["GFund" := noMinEntry]> ∅);
                      prices_loaded := false; returns_loaded := false;
                      prices_info := None; returns_info := None |}
    else demoService i r.

(** A service that turns every upload down with "bad header". *)
Definition badHeader : nat → request → outcome :=
  λ _ _, replyJson {| success := false; message := Some "bad header"; data := None;
                      statistics := None; prices_loaded := false;
                      returns_loaded := false; prices_info := None;
                      returns_info := None |}.

(** ** Relations kept by whole runs

    [keeps R t]: the page at the end of any run of [t] is [R]-related to
    the page at its start. *)
Definition keeps {A} (R : relation Page) (t : task A) : Prop :=
  ∀ net p, R p (run net t p).1.

(** The cards the loop of [updateStatistics] appends for [funds], and the
    error that ends it early, if any. *)
Fixpoint renderCards `{Host} (dataType_ : string) (m : gmap string stat_entry)
    (funds : list string) : list node * option exn :=
  match funds with
  | [] => ([], None)
  | fund :: rest =>
      match m !! fund with
      | None => renderCards dataType_ m rest
      | Some stats =>
          match statCard dataType_ fund stats with
          | Abrupt e => ([], Some e)
          | Normal card =>
              let (cards, err) := renderCards dataType_ m rest in
              (card :: cards, err)
          end
      end
  end.

(** A hidden overlay stays hidden. *)
Definition overlayStays (p p' : Page) : Prop :=
  loadingOverlay p = "none" → loadingOverlay p' = "none".

(** A date input that holds a value keeps it. *)
Definition valuesKept (p p' : Page) : Prop :=
  (di_value (startDate p) ≠ "" → di_value (startDate p') = di_value (startDate p)) ∧
  (di_value (endDate p) ≠ "" → di_value (endDate p') = di_value (endDate p)).

(** The panels a refresh may redraw and the date inputs are the same. *)
Definition sameInfoPanel (p p' : Page) : Prop :=
  dataInfoCard p' = dataInfoCard p ∧ dataInfoGrid p' = dataInfoGrid p ∧
  startDate p' = startDate p ∧ endDate p' = endDate p.

(** [updateChart] stopped by its guard: the page with the warning. *)
Definition chartBlocked (p : Page) : Page :=
  log (EvNotify ("No " +:+ dataType p +:+
                 " data loaded. Please upload a CSV file first.") "warning")
    (set_notification
       (Some ("No " +:+ dataType p +:+
              " data loaded. Please upload a CSV file first.", "warning")) p).

Definition sameDownloads (p p' : Page) : Prop := downloads p' = downloads p.

(** The selection and the checkboxes are the same. *)
Definition sameFunds (p p' : Page) : Prop :=
  selectedFunds p' = selectedFunds p ∧ fundSelection p' = fundSelection p.

(** Every checkbox is checked exactly when its fund is selected, and its
    label carries the [checked] class exactly when the box is checked. *)
Definition inStep (p : Page) : Prop :=
  ∀ c, c ∈ fundSelection p →
       (cb_checked c = true ↔ cb_value c ∈ selectedFunds p) ∧
       cb_label_checked c = cb_checked c.

(** ** The notification banner, element by element

    [showNotification] once more, now with the identity of the banner
    elements, which its timers and its dismiss button hold on to.  The
    document is the list of the [.notification] children of the body in
    document order; an element is named by the number of elements created
    before it.  The two timeouts of a banner are pending timers that fire
    in any order the clock may produce.  The message is taken as text: it
    brings no [.notification] element of its own into the banner. *)
Module Banner.

Record banner := {
  id : nat;
  text : string;
  kind : string;
  (** [style.animation] has been set to the slide-out *)
  leaving : bool
}.

Record doc := {
  body : list banner;
  created : nat;
  (** banners whose 5000 ms timer has not fired yet *)
  pending : list nat;
  (** banners whose 300 ms timer has been set and has not fired yet *)
  pendingRemoval : list nat
}.

(** [notification.parentElement] is not null *)
Definition attached (i : nat) (d : doc) : bool :=
  bool_decide (i ∈ map id (body d)).

(** [element.remove()]: nothing happens when the element is detached *)
Definition remove (i : nat) (d : doc) : doc :=
  {| body := filter (λ b, id b ≠ i) (body d); created := created d;
     pending := pending d; pendingRemoval := pendingRemoval d |}.

Definition showNotification (message type : string) (d : doc) : doc :=
  (* Remove existing notifications *)
  let d1 :=
    match body d with
    | existing :: _ => remove (id existing) d
    | [] => d
    end in
  {| body := body d1 ++ [ {| id := created d; text := message; kind := type;
                             leaving := false |} ];
     created := S (created d);
     (* Auto-remove after 5 seconds *)
     pending := created d :: pending d1;
     pendingRemoval := pendingRemoval d1 |}.

(** The callback of the 5000 ms timeout of banner [i]. *)
Definition autoRemove (i : nat) (d : doc) : doc :=
  if attached i d
  then {| body := map (λ b, if Nat.eqb (id b) i
                            then {| id := id b; text := text b; kind := kind b;
                                    leaving := true |}
                            else b) (body d);
          created := created d;
          pending := pending d;
          pendingRemoval := i :: pendingRemoval d |}
  else d.

(** The callback of the 300 ms timeout of banner [i]. *)
Definition finishRemove (i : nat) (d : doc) : doc :=
  if attached i d then remove i d else d.

Inductive event :=
| Show (message type : string)
| Click (i : nat)
| Fire (i : nat)
| FireRemoval (i : nat).

Definition step (e : event) (d : doc) : doc :=
  match e with
  | Show message type => showNotification message type d
  | Click i => remove i d
  | Fire i =>
      if bool_decide (i ∈ pending d)
      then autoRemove i
             {| body := body d; created := created d;
                pending := filter (λ j, j ≠ i) (pending d);
                pendingRemoval := pendingRemoval d |}
      else d
  | FireRemoval i =>
      if bool_decide (i ∈ pendingRemoval d)
      then finishRemove i
             {| body := body d; created := created d;
                pending := pending d;
                pendingRemoval := filter (λ j, j ≠ i) (pendingRemoval d) |}
      else d
  end.

Definition run (es : list event) (d : doc) : doc := foldl (λ d e, step e d) d es.

(** The banner an event is about, if it is about one. *)
Definition target (e : event) : option nat :=
  match e with
  | Show _ _ => None
  | Click i | Fire i | FireRemoval i => Some i
  end.

Definition empty : doc :=
  {| body := []; created := 0; pending := []; pendingRemoval := [] |}.

End Banner.

(** ** More pages and services for examples *)

(** A statistics entry with every key, and the entry of a fund without
    data in the range. *)
Definition fullEntry : stat_entry := {|
  current := Val (21 # 2); change := Val (1 # 4); min := Val 10; max := Val 12;
  count := Val 3; total_periods := Val 3; data_coverage := Val 100
|}.

Definition noDataEntry : stat_entry := {|
  current := Null; change := Null; min := Null; max := Null;
  count := Val 0; total_periods := Val 3; data_coverage := Val 0
|}.

Definition statsBody : body := {|
  success := true; message := None; data := None;
  statistics := Some (<["GFund" := fullEntry]> (<["IFund" := noDataEntry]> ∅));
  prices_loaded := false; returns_loaded := false;
  prices_info := None; returns_info := None
|}.

(** A service whose statistics hold the two entries above. *)
Definition statsService : nat → request → outcome :=
  λ i r,
    if String.eqb (url r) "http://localhost:5000/api/statistics"
    then replyJson statsBody
    else demoService i r.

(** The loaded page with a start date chosen and no end date. *)
Definition startChosenPage : Page :=
  set_startDate {| di_min := ""; di_max := ""; di_value := "2020-05-05" |} loadedPage.

(** The same with an end date as well. *)
Definition datesChosenPage : Page :=
  set_endDate {| di_min := ""; di_max := ""; di_value := "2020-06-06" |} startChosenPage.

(** A prices range whose end is not a date. *)
Definition brokenRange : date_range_t :=
  {| start := "2020-01-02"; end_ := "n/a" |}.

Definition brokenInfoBody : body := {|
  success := true; message := None; data := None; statistics := None;
  prices_loaded := true; returns_loaded := false;
  prices_info := Some {| record_count := Val 250; date_range := Some brokenRange;
                         fund_availability := None |};
  returns_info := None
|}.

Definition brokenInfoService : nat → request → outcome :=
  λ i r,
    if String.eqb (url r) "http://localhost:5000/api/data-info"
    then replyJson brokenInfoBody
    else demoService i r.

(** The bare [success] answer of [demoService]. *)
Definition okBody : body := {|
  success := true; message := None; data := None; statistics := Some ∅;
  prices_loaded := false; returns_loaded := false;
  prices_info := None; returns_info := None
|}.

(** Two notifications in a row on a page without banners: the second has
    replaced the first, whose timer is still pending. *)
Definition twoShown : Banner.doc :=
  Banner.run [Banner.Show "Loading..." "info"; Banner.Show "Done" "success"]
    Banner.empty.

(** The data type and the chart type are the same. *)
Definition sameKinds (p p' : Page) : Prop :=
  dataType p' = dataType p ∧ chartType p' = chartType p.

(** * Properties *)

Section Properties.
Context {host : Host}.

(** ** Running composed tasks *)

Lemma run_bind {A B} net (t : task A) (f : A → task B) p :
  run net (bind t f) p =
  match run net t p with
  | (p', Normal a) => run net (f a) p'
  | (p', Abrupt e) => (p', Abrupt e)
  end.
Proof.
  revert p. induction t as [a|e|k IH|g k IH|i r k IH]; intros p; simpl; auto.
Qed.

Lemma run_mbind {A B} net (t : task A) (f : A → task B) p :
  run net (t ≫= f) p =
  match run net t p with
  | (p', Normal a) => run net (f a) p'
  | (p', Abrupt e) => (p', Abrupt e)
  end.
Proof. apply run_bind. Qed.

Lemma run_catch {A} net (t : task A) h p :
  run net (catch t h) p =
  match run net t p with
  | (p', Normal a) => (p', Normal a)
  | (p', Abrupt e) => run net (h e) p'
  end.
Proof.
  revert p. induction t as [a|e|k IH|g k IH|i r k IH]; intros p; simpl; auto.
Qed.

Lemma run_finally {A} net (t : task A) f p :
  run net (finally t f) p =
  match run net t p with
  | (p', c) =>
      match run net f p' with
      | (p'', Normal _) => (p'', c)
      | (p'', Abrupt e) => (p'', Abrupt e)
      end
  end.
Proof.
  revert p. induction t as [a|e|k IH|g k IH|i r k IH]; intros p; simpl; auto.
  - rewrite run_bind. destruct (run net f p) as [p' [[]|e]]; reflexivity.
  - rewrite run_bind. destruct (run net f p) as [p' [[]|e']]; reflexivity.
Qed.

(** ** Tasks up to their first wait *)

Lemma run_prefix {A} net (t : task A) p :
  run net t p =
  match prefix t p with
  | Done p' c => (p', c)
  | Waiting p' i r k => run net (k (net i r)) p'
  end.
Proof.
  revert p. induction t as [a|e|k IH|g k IH|i r k IH]; intros p; simpl; auto.
Qed.

Lemma run_fork {A} net (t : task A) f p :
  run net (fork t (modify f)) p =
  match prefix t p with
  | Done p' c => (f p', c)
  | Waiting p' i r k => run net (k (net i r)) (f p')
  end.
Proof.
  revert p. induction t as [a|e|k IH|g k IH|i r k IH]; intros p; simpl; auto.
Qed.

Lemma prefix_bind {A B} (t : task A) (f : A → task B) p :
  prefix (bind t f) p =
  match prefix t p with
  | Done p' (Normal a) => prefix (f a) p'
  | Done p' (Abrupt e) => Done p' (Abrupt e)
  | Waiting p' i r k => Waiting p' i r (λ o, bind (k o) f)
  end.
Proof.
  revert p. induction t as [a|e|k IH|g k IH|i r k IH]; intros p; simpl; auto.
Qed.

Lemma prefix_mbind {A B} (t : task A) (f : A → task B) p :
  prefix (t ≫= f) p =
  match prefix t p with
  | Done p' (Normal a) => prefix (f a) p'
  | Done p' (Abrupt e) => Done p' (Abrupt e)
  | Waiting p' i r k => Waiting p' i r (λ o, bind (k o) f)
  end.
Proof. apply prefix_bind. Qed.

Lemma prefix_catch {A} (t : task A) h p :
  prefix (catch t h) p =
  match prefix t p with
  | Done p' (Normal a) => Done p' (Normal a)
  | Done p' (Abrupt e) => prefix (h e) p'
  | Waiting p' i r k => Waiting p' i r (λ o, catch (k o) h)
  end.
Proof.
  revert p. induction t as [a|e|k IH|g k IH|i r k IH]; intros p; simpl; auto.
Qed.

Lemma prefix_finally {A} (t : task A) f p :
  prefix (finally t f) p =
  match prefix t p with
  | Done p' (Normal a) => prefix (bind f (λ _, Ret a)) p'
  | Done p' (Abrupt e) => prefix (bind f (λ _, Throw e)) p'
  | Waiting p' i r k => Waiting p' i r (λ o, finally (k o) f)
  end.
Proof.
  revert p. induction t as [a|e|k IH|g k IH|i r k IH]; intros p; simpl; auto.
Qed.

(** ** Guarantees of composed tasks *)

Lemma guar_bind {A B} G (t : task A) (f : A → task B) :
  guar G t → (∀ a, guar G (f a)) → guar G (bind t f).
Proof.
  intros Ht Hf. induction t as [a|e|k IH|g k IH|i r k IH]; simpl in *; auto.
  destruct Ht; auto.
Qed.

Lemma guar_mbind {A B} G (t : task A) (f : A → task B) :
  guar G t → (∀ a, guar G (f a)) → guar G (t ≫= f).
Proof. apply guar_bind. Qed.

Lemma guar_catch {A} G (t : task A) h :
  guar G t → (∀ e, guar G (h e)) → guar G (catch t h).
Proof.
  intros Ht Hh. induction t as [a|e|k IH|g k IH|i r k IH]; simpl in *; auto.
  destruct Ht; auto.
Qed.

Lemma guar_finally {A} G (t : task A) f :
  guar G t → guar G f → guar G (finally t f).
Proof.
  intros Ht Hf. induction t as [a|e|k IH|g k IH|i r k IH]; simpl in *; auto.
  - apply guar_bind; simpl; auto.
  - apply guar_bind; simpl; auto.
  - destruct Ht; auto.
Qed.

Lemma guar_fork {A} G (t : task A) g :
  guar G t → guar G g → guar G (fork t g).
Proof.
  intros Ht Hg. induction t as [a|e|k IH|f k IH|i r k IH]; simpl in *; auto.
  - apply guar_bind; simpl; auto.
  - apply guar_bind; simpl; auto.
  - destruct Ht; auto.
  - apply guar_bind; simpl; auto.
Qed.

Lemma guar_lift {A} G (c : completion A) : guar G (lift c).
Proof. destruct c; exact I. Qed.

Lemma guar_forEach {X} G (xs : list X) body :
  (∀ x, guar G (body x)) → guar G (forEach xs body).
Proof.
  intros Hb. induction xs as [|x xs IH]; simpl; [exact I|].
  apply guar_bind; auto.
Qed.

(** A guarantee that is a preorder holds between the ends of a run. *)
Lemma guar_run {A} (G : Page → Page → Prop) net (t : task A) p :
  (∀ q, G q q) → (∀ q1 q2 q3, G q1 q2 → G q2 q3 → G q1 q3) →
  guar G t → G p (run net t p).1.
Proof.
  intros Hrefl Htrans. revert p.
  induction t as [a|e|k IH|g k IH|i r k IH]; intros p Ht; simpl in *; auto.
  destruct Ht as [Hg Hk]. eapply Htrans; [apply Hg | apply IH, Hk].
Qed.

(** Guarantees of the script's functions are found by walking their
    bodies. *)
Ltac head_of t :=
  lazymatch t with
  | ?f _ => head_of f
  | _ => t
  end.

Ltac guar_leaf :=
  first
    [ exact I
    | solve [ cbv [flagsMonotone]; simpl; tauto ]
    | solve [ cbv [sameFilter sameSelection sameChart sameLoaded samePrices sameReturns
                   sameBounds];
              simpl; repeat split; reflexivity ]
    | solve [ cbv [sameRequests requests log]; simpl; rewrite ?omap_app; simpl;
              rewrite ?app_nil_r; reflexivity ] ].

Ltac guar_step :=
  cbv beta zeta;
  lazymatch goal with
  | |- guar _ (bind _ _) => apply guar_bind
  | |- guar _ (mbind _ _) => apply guar_mbind
  | |- guar _ (catch _ _) => apply guar_catch
  | |- guar _ (finally _ _) => apply guar_finally
  | |- guar _ (fork _ _) => apply guar_fork
  | |- guar _ (forEach _ _) => apply guar_forEach
  | |- guar _ (Ret _) => exact I
  | |- guar _ (Throw _) => exact I
  | |- guar _ (lift _) => apply guar_lift
  | |- guar _ (Read _) => intros ?
  | |- guar _ (Update _ _) => split
  | |- guar _ (Await _ _ _) => intros ?
  | |- guar _ (if ?b then _ else _) => destruct b
  | |- guar _ (match ?x with _ => _ end) => destruct x
  | |- guar _ ?t => let h := head_of t in unfold h
  | |- ∀ _, _ => intros ?
  | |- _ => guar_leaf
  end.

Ltac guar_auto := repeat guar_step.

Lemma handle_flagsMonotone o : guar flagsMonotone (handle o).
Proof. destruct o; guar_auto. Qed.

Lemma updateChart_sameFilter : guar sameFilter updateChart.
Proof. guar_auto. Qed.

Lemma updateStatistics_sameChart : guar sameChart updateStatistics.
Proof. guar_auto. Qed.

Lemma refreshDataInfo_sameSelection : guar sameSelection refreshDataInfo.
Proof. guar_auto. Qed.

(** ** The service client *)

Lemma requests_log e p :
  requests (log e p) =
  requests p ++ match e with EvRequest r => [r] | _ => [] end.
Proof.
  unfold requests, log. simpl. rewrite omap_app. destruct e; reflexivity.
Qed.

(** Normalise the requests of a page built by updates of a page [p]. *)
Ltac simpl_requests :=
  unfold requests, chartFailed, afterCall, afterCallThen, settleCall, sentCall, log;
  simpl;
  rewrite ?omap_app; simpl; rewrite ?app_nil_r;
  rewrite <- ?app_assoc; simpl.

Lemma run_lift {A} net (c : completion A) p : run net (lift c) p = (p, c).
Proof. destruct c; reflexivity. Qed.

Lemma run_apiCall net endpoint method data p :
  run net (apiCall endpoint method data) p =
  let r := requestOptions endpoint method data in
  let c := readResponse (net (length (requests p)) r) in
  (afterCall r c p, c).
Proof.
  unfold apiCall. rewrite run_finally, run_catch. simpl.
  rewrite requests_log, app_nil_r. simpl. rewrite !run_lift.
  change (requests (set_loadingOverlay "flex" p)) with (requests p).
  destruct (readResponse _) as [b|e]; reflexivity.
Qed.

Lemma prefix_apiCall endpoint method data p :
  prefix (apiCall endpoint method data) p =
  Waiting (sentCall (requestOptions endpoint method data) p)
    (length (requests p)) (requestOptions endpoint method data)
    (λ o, finally
            (catch (bind (Ret o) (λ o, lift (readResponse o)))
               (λ error,
                  showNotification ("Error: " +:+ exn_message error) "error";;
                  Throw error))
            (showLoading false)).
Proof.
  unfold apiCall. simpl. rewrite requests_log, app_nil_r. reflexivity.
Qed.

(** C8. Every call through [apiCall] shows the loading overlay before the
    request leaves (the overlay is up while the call waits) and hides it
    once the call has settled, whether the call returns the parsed body or
    fails (rejected fetch, unreadable body, non-success status); a failed
    call also shows an error notification and throws its error on to the
    caller. *)
Theorem C8_apiCall_loading_scoped net endpoint method data p :
  let r := requestOptions endpoint method data in
  let o := net (length (requests p)) r in
  let p' := (run net (apiCall endpoint method data) p).1 in
  let c := (run net (apiCall endpoint method data) p).2 in
  match prefix (apiCall endpoint method data) p with
  | Waiting q _ r' _ => r' = r ∧ loadingOverlay q = "flex"
  | Done _ _ => False
  end ∧
  loadingOverlay p' = "none" ∧
  c = readResponse o ∧
  match c with
  | Normal _ =>
      trace p' = trace p ++ [EvLoading true; EvRequest r; EvLoading false] ∧
      notification p' = notification p
  | Abrupt e =>
      trace p' = trace p ++ [EvLoading true; EvRequest r;
                             EvNotify ("Error: " +:+ exn_message e) "error";
                             EvLoading false] ∧
      notification p' = Some ("Error: " +:+ exn_message e, "error")
  end ∧
  (∀ e, o = Rejected e → c = Abrupt e) ∧
  (∀ resp e, o = Resolved resp → json resp = inl e → c = Abrupt e) ∧
  (∀ resp b, o = Resolved resp → json resp = inr b → ok resp = false →
     ∃ e, c = Abrupt e) ∧
  (∀ resp b, o = Resolved resp → json resp = inr b → ok resp = true →
     c = Normal b).
Proof.
  intros r o p' c. subst p' c. rewrite run_apiCall, prefix_apiCall.
  simpl. fold r. fold o.
  split; [by split|]. split; [reflexivity|]. split; [reflexivity|]. split.
  - destruct (readResponse o) as [b|e]; simpl; rewrite <- ?app_assoc; auto.
  - unfold readResponse. repeat split.
    + intros e ->. reflexivity.
    + intros resp e -> ->. reflexivity.
    + intros resp b -> -> ->. simpl. eauto.
    + intros resp b -> -> ->. reflexivity.
Qed.

(** ** Guards of the chart and of the export *)

(** C3. When the selected data type is prices and no prices are loaded, or
    returns and no returns are loaded, a chart update sends nothing to the
    service: its only effect is a warning notification; the chart and the
    statistics panel stay as they were. *)
Theorem C3_updateChart_guard net p :
  (dataType p = "prices" ∧ prices (dataLoaded p) = false) ∨
  (dataType p = "returns" ∧ returns (dataLoaded p) = false) →
  let p' := (run net updateChart p).1 in
  let msg := "No " +:+ dataType p +:+ " data loaded. Please upload a CSV file first." in
  trace p' = trace p ++ [EvNotify msg "warning"] ∧
  requests p' = requests p ∧
  notification p' = Some (msg, "warning") ∧
  chart p' = chart p ∧
  statsGrid p' = statsGrid p.
Proof.
  intros Hg p' msg.
  assert (guardFails p = true) as Hf.
  { unfold guardFails. destruct Hg as [[-> ->]|[-> ->]]; reflexivity. }
  subst p'. unfold updateChart. simpl. rewrite Hf. simpl.
  repeat split. simpl_requests. reflexivity.
Qed.

(** C10. The CSV export has the same guard: with no dataset loaded for the
    selected data type it sends nothing to the service and shows a
    warning. *)
Theorem C10_exportData_guard net p :
  (dataType p = "prices" ∧ prices (dataLoaded p) = false) ∨
  (dataType p = "returns" ∧ returns (dataLoaded p) = false) →
  let p' := (run net exportData p).1 in
  let msg := "No " +:+ dataType p +:+ " data loaded to export" in
  trace p' = trace p ++ [EvNotify msg "warning"; EvLoading false] ∧
  requests p' = requests p ∧
  notification p' = Some (msg, "warning") ∧
  downloads p' = downloads p.
Proof.
  intros Hg p' msg.
  assert (guardFails p = true) as Hf.
  { unfold guardFails. destruct Hg as [[-> ->]|[-> ->]]; reflexivity. }
  subst p'. unfold exportData. simpl. rewrite Hf. simpl.
  repeat split.
  - rewrite <- app_assoc. reflexivity.
  - simpl_requests. reflexivity.
Qed.

(** ** Uploads *)

Lemma append_empty_r (s : string) : s +:+ "" = s.
Proof.
  induction s as [|c s IH]; [reflexivity|].
  change (String c (s +:+ "") = String c s). by rewrite IH.
Qed.

Lemma contains_suffix (pre m : string) : contains (pre +:+ m) m.
Proof. exists pre, "". by rewrite append_empty_r. Qed.

Lemma contains_empty (s : string) : contains s "".
Proof. exists "", s. reflexivity. Qed.

(** C4. An upload of prices or of returns that the service turns down
    (a body without [success], carrying message [m]) or that fails in
    transit leaves both availability flags as they were and sends exactly
    one request, so nothing is retried; an error notification is on
    screen, and it contains [m] when the service sent one. *)
Theorem C4_upload_failure_atomic net file p (upload : string → task unit)
    (endpoint label : string) :
  (upload = uploadPricesFile ∧ endpoint = "/upload/prices"
     ∧ label = "Error loading prices: ") ∨
  (upload = uploadReturnsFile ∧ endpoint = "/upload/returns"
     ∧ label = "Error loading returns: ") →
  let r := requestOptions endpoint "POST" (FormData file) in
  let o := net (length (requests p)) r in
  uploadRefused o = true →
  let p' := (run net (upload file) p).1 in
  dataLoaded p' = dataLoaded p ∧
  requests p' = requests p ++ [r] ∧
  (∃ msg, notification p' = Some (msg, "error")) ∧
  (∀ resp b m,
     o = Resolved resp → json resp = inr b → message b = Some m →
     ∃ msg, notification p' = Some (msg, "error") ∧ contains msg m) ∧
  (∀ resp b m,
     o = Resolved resp → json resp = inr b → ok resp = true → message b = Some m →
     notification p' = Some (label +:+ m, "error")).
Proof.
  intros Hup r o Href p'. subst p'.
  assert (run net (upload file) p =
          match readResponse o with
          | Normal b =>
              (log (EvNotify (label +:+ show_str (message b)) "error")
                 (set_notification (Some (label +:+ show_str (message b), "error"))
                    (afterCall r (Normal b) p)), Normal tt)
          | Abrupt e =>
              (log (EvConsoleError
                      (if String.eqb endpoint "/upload/prices"
                       then "Error uploading prices file:"
                       else "Error uploading returns file:") e)
                 (afterCall r (Abrupt e) p), Normal tt)
          end) as Hrun.
  { unfold uploadRefused in Href.
    destruct Hup as [(-> & -> & ->)|(-> & -> & ->)].
    - unfold uploadPricesFile. rewrite run_catch, run_mbind, run_apiCall.
      cbv zeta. fold r. fold o.
      destruct (readResponse o) as [b|e]; [|reflexivity].
      apply negb_true_iff in Href. rewrite Href. reflexivity.
    - unfold uploadReturnsFile. rewrite run_catch, run_mbind, run_apiCall.
      cbv zeta. fold r. fold o.
      destruct (readResponse o) as [b|e]; [|reflexivity].
      apply negb_true_iff in Href. rewrite Href. reflexivity. }
  rewrite Hrun. clear Hrun. unfold uploadRefused in Href.
  assert (∀ resp b, o = Resolved resp → json resp = inr b →
          readResponse o =
          if negb (ok resp)
          then Abrupt (Exn "Error"
                         match message b with
                         | Some m => if String.eqb m "" then "API request failed" else m
                         | None => "API request failed"
                         end)
          else Normal b) as Hread.
  { intros resp b -> Hj. unfold readResponse. by rewrite Hj. }
  repeat split.
  - destruct (readResponse o); reflexivity.
  - destruct (readResponse o); simpl; simpl_requests; reflexivity.
  - destruct (readResponse o); simpl; eauto.
  - intros resp b m Ho Hj Hm. rewrite (Hread _ _ Ho Hj), Hm.
    destruct (ok resp); simpl.
    + rewrite Hm. simpl. eexists. split; [reflexivity|]. apply contains_suffix.
    + eexists. split; [reflexivity|].
      destruct (String.eqb_spec m "") as [->|_];
        [apply contains_empty | apply contains_suffix].
  - intros resp b m Ho Hj Hok Hm. rewrite (Hread _ _ Ho Hj), Hok. simpl.
    by rewrite Hm.
Qed.

(** ** The chart and the statistics *)

Lemma run_Read {A} net (k : Page → task A) p :
  run net (Read k) p = run net (k p) p.
Proof. reflexivity. Qed.

Lemma run_modify net f p : run net (modify f) p = (f p, Normal tt).
Proof. reflexivity. Qed.

Lemma run_modify_bind {B} net f (k : unit → task B) p :
  run net (modify f ≫= k) p = run net (k tt) (f p).
Proof. reflexivity. Qed.

Lemma run_lift_bind {A B} net (a : A) (k : A → task B) p :
  run net (lift (Normal a) ≫= k) p = run net (k a) p.
Proof. reflexivity. Qed.

(** A [try] whose handler cannot throw ends normally. *)
Lemma run_catch_normal net (t : task unit) h p :
  (∀ e q, (run net (h e) q).2 = Normal tt) →
  (run net (catch t h) p).2 = Normal tt.
Proof.
  intros Hh. rewrite run_catch.
  destruct (run net t p) as [p' [[]|e]]; [reflexivity | apply Hh].
Qed.

Lemma updateStatistics_normal net p :
  (run net updateStatistics p).2 = Normal tt.
Proof. apply run_catch_normal. reflexivity. Qed.

Lemma updateStatistics_chart net p :
  chart (run net updateStatistics p).1 = chart p.
Proof.
  apply (guar_run sameChart net updateStatistics p).
  - reflexivity.
  - unfold sameChart. congruence.
  - apply updateStatistics_sameChart.
Qed.

Ltac run_frame G :=
  match goal with
  | |- context [run ?net ?t ?q] =>
      let Hframe := fresh "Hframe" in
      assert (G q (run net t q).1) as Hframe;
      [ apply guar_run; [ | | guar_auto ] | ]
  end.

(** The statistics renderer sends one request, for the filter on the page. *)
Lemma updateStatistics_requests net p :
  requests (run net updateStatistics p).1 =
  requests p ++ [requestOptions "/statistics" "POST" (Json (currentQuery p))].
Proof.
  unfold updateStatistics. rewrite run_catch, run_Read, run_mbind, run_apiCall.
  cbv beta zeta.
  set (r := requestOptions "/statistics" "POST" (Json (currentQuery p))).
  assert (requests (afterCall r (readResponse (net (length (requests p)) r)) p)
          = requests p ++ [r]) as Hcall.
  { destruct (readResponse _); simpl_requests; reflexivity. }
  destruct (readResponse _) as [b|e].
  - run_frame sameRequests.
    + reflexivity.
    + unfold sameRequests. congruence.
    + destruct (run net _ _) as [q [[]|e]]; simpl in *.
      * by rewrite Hframe.
      * unfold sameRequests in Hframe. simpl_requests.
        unfold requests in Hframe. rewrite Hframe. apply Hcall.
  - simpl. simpl_requests. reflexivity.
Qed.

Lemma updateChart_prefix net p :
  guardFails p = false →
  let r := requestOptions "/chart-data" "POST" (Json (currentQuery p)) in
  ∃ k, prefix updateChart p = Waiting (sentCall r p) (length (requests p)) r k ∧
       ∀ o q, run net (k o) q =
              (chartSettled net p (readResponse o) (settleCall (readResponse o) q),
               Normal tt).
Proof.
  intros Hg r. unfold updateChart.
  rewrite prefix_catch. change (prefix (Read ?k) p) with (prefix (k p) p).
  cbv beta zeta. rewrite Hg, prefix_mbind, prefix_apiCall. fold r.
  eexists. split; [reflexivity|]. intros o q. cbv beta.
  rewrite run_catch, run_bind, run_finally, run_catch. cbn [bind].
  rewrite run_lift. unfold chartSettled, settleCall.
  destruct (readResponse o) as [b|e]; [|reflexivity].
  unfold showLoading. rewrite run_modify.
  destruct (success b); [|reflexivity]. cbv [negb].
  rewrite run_mbind, run_modify.
  destruct (data b) as [d|]; [|reflexivity].
  rewrite run_Read.
  change (chart (set_chartTitle _ ?q)) with (chart q).
  destruct (chart _) as [c0|]; [|reflexivity].
  rewrite run_mbind, run_modify.
  match goal with
  | |- context [run net updateStatistics ?q] =>
      pose proof (updateStatistics_normal net q) as Hn;
      destruct (run net updateStatistics q) as [q' cq]
  end.
  simpl in Hn. subst cq. reflexivity.
Qed.

Lemma run_updateChart_passed net p :
  guardFails p = false →
  let r := requestOptions "/chart-data" "POST" (Json (currentQuery p)) in
  let c := readResponse (net (length (requests p)) r) in
  run net updateChart p = (chartSettled net p c (afterCall r c p), Normal tt).
Proof.
  intros Hg r c. rewrite run_prefix.
  destruct (updateChart_prefix net p Hg) as (k & -> & Hk). apply Hk.
Qed.

(** [updateChart] started and not awaited by a caller that goes on to show
    a notification. *)
Lemma run_fork_updateChart net msg type p :
  let r := requestOptions "/chart-data" "POST" (Json (currentQuery p)) in
  let c := readResponse (net (length (requests p)) r) in
  let told q := log (EvNotify msg type) (set_notification (Some (msg, type)) q) in
  run net (fork updateChart (showNotification msg type)) p =
  if guardFails p
  then
    (told (log (EvNotify ("No " +:+ dataType p +:+
                          " data loaded. Please upload a CSV file first.") "warning")
             (set_notification
                (Some ("No " +:+ dataType p +:+
                       " data loaded. Please upload a CSV file first.", "warning"))
                p)), Normal tt)
  else (chartSettled net p c (afterCallThen told r c p), Normal tt).
Proof.
  intros r c told. unfold showNotification. rewrite run_fork.
  destruct (guardFails p) eqn:Hg.
  - unfold updateChart. simpl. rewrite Hg. reflexivity.
  - destruct (updateChart_prefix net p Hg) as (k & -> & Hk). apply Hk.
Qed.

Lemma decorate_lookup chartType_ dataset :
  decorate chartType_ dataset !! "fill" = Some (VBool (String.eqb chartType_ "area")) ∧
  decorate chartType_ dataset !! "pointRadius" = Some (VNum 2) ∧
  decorate chartType_ dataset !! "pointHoverRadius" = Some (VNum 6) ∧
  decorate chartType_ dataset !! "pointBackgroundColor"
    = Some (default VUndef (dataset !! "borderColor")) ∧
  decorate chartType_ dataset !! "pointBorderColor"
    = Some (default VUndef (dataset !! "borderColor")) ∧
  (∀ key, key ∉ presentationKeys → decorate chartType_ dataset !! key = dataset !! key).
Proof.
  unfold decorate.
  repeat split;
    try (repeat (rewrite lookup_insert_ne by discriminate);
         by rewrite lookup_insert_eq).
  intros key Hkey. unfold presentationKeys in Hkey.
  rewrite !lookup_insert_ne; [reflexivity | intros <-; apply Hkey ..];
    repeat first [apply list_elem_of_here | apply list_elem_of_further].
Qed.

Lemma decorate_seriesLength chartType_ dataset :
  seriesLength (decorate chartType_ dataset) = seriesLength dataset.
Proof.
  unfold seriesLength.
  destruct (decorate_lookup chartType_ dataset) as (_ & _ & _ & _ & _ & Hkeep).
  rewrite Hkeep; [reflexivity|]. unfold presentationKeys.
  rewrite !not_elem_of_cons. repeat split; try discriminate. apply not_elem_of_nil.
Qed.

(** C5. A successful chart response with [n] labels and [k] datasets of
    [n] points each puts exactly [k] series of [n] points on the chart,
    under the response's labels.  Each series is its dataset with the
    presentation keys set: fill on exactly when the chart type is area,
    point radius 2, hover radius 6, both point colours the dataset's
    border colour.  The series is a function of the chart type and the
    dataset alone, and every other key of the dataset is kept. *)
Theorem C5_chart_series net p b d c0 n k :
  guardFails p = false →
  chart p = Some c0 →
  readResponse (net (length (requests p))
                  (requestOptions "/chart-data" "POST" (Json (currentQuery p))))
    = Normal b →
  success b = true →
  data b = Some d →
  length (cd_labels d) = n →
  length (cd_datasets d) = k →
  Forall (λ dataset, seriesLength dataset = Some n) (cd_datasets d) →
  ∃ c, chart (run net updateChart p).1 = Some c ∧
       labels c = cd_labels d ∧
       length (labels c) = n ∧
       datasets c = map (decorate (chartType p)) (cd_datasets d) ∧
       length (datasets c) = k ∧
       Forall (λ series, seriesLength series = Some n) (datasets c) ∧
       ∀ j dataset, cd_datasets d !! j = Some dataset →
         ∃ series, datasets c !! j = Some series ∧
           (series !! "fill" = Some (VBool true) ↔ chartType p = "area") ∧
           (series !! "fill" = Some (VBool false) ↔ chartType p ≠ "area") ∧
           series !! "pointRadius" = Some (VNum 2) ∧
           series !! "pointHoverRadius" = Some (VNum 6) ∧
           series !! "pointBackgroundColor"
             = Some (default VUndef (dataset !! "borderColor")) ∧
           series !! "pointBorderColor"
             = Some (default VUndef (dataset !! "borderColor")) ∧
           ∀ key, key ∉ presentationKeys → series !! key = dataset !! key.
Proof.
  intros Hg Hc Hr Hs Hd Hn Hk Hlen.
  rewrite (run_updateChart_passed net p Hg). cbv zeta. rewrite Hr.
  unfold chartSettled. rewrite Hs, Hd.
  change (chart (afterCall _ _ p)) with (chart p). rewrite Hc.
  cbn [fst]. rewrite updateStatistics_chart. cbn [chart set_chart].
  eexists. split; [reflexivity|]. cbn [labels datasets].
  split; [reflexivity|]. split; [exact Hn|]. split; [reflexivity|].
  split; [by rewrite length_map|]. split.
  - apply Forall_map. eapply Forall_impl; [exact Hlen|].
    intros dataset Hds. simpl. by rewrite decorate_seriesLength.
  - intros j dataset Hj. exists (decorate (chartType p) dataset).
    split; [by rewrite list_lookup_fmap, Hj|].
    destruct (decorate_lookup (chartType p) dataset)
      as (Hfill & Hrad & Hhov & Hbg & Hbd & Hkeep).
    rewrite Hfill. repeat split; auto.
    + intros [= Heq]. by apply String.eqb_eq.
    + intros ->. reflexivity.
    + intros [= Heq]. by apply String.eqb_neq.
    + intros Hne. apply String.eqb_neq in Hne. by rewrite Hne.
Qed.


(** ** Availability flags *)

Lemma flagsMonotone_refl p : flagsMonotone p p.
Proof. split; auto. Qed.

Lemma flagsMonotone_trans p q r :
  flagsMonotone p q → flagsMonotone q r → flagsMonotone p r.
Proof. intros [] []. split; auto. Qed.

Lemma session_flagsMonotone net ops p : flagsMonotone p (session net ops p).
Proof.
  revert p. induction ops as [|o ops IH]; intros p; simpl.
  - apply flagsMonotone_refl.
  - eapply flagsMonotone_trans; [|apply IH].
    apply guar_run;
      [apply flagsMonotone_refl | apply flagsMonotone_trans
      | apply handle_flagsMonotone].
Qed.

Lemma keeps_prices {A} net (t : task A) p :
  guar samePrices t → prices (dataLoaded (run net t p).1) = prices (dataLoaded p).
Proof.
  intros Ht. apply (guar_run samePrices); [reflexivity | | exact Ht].
  unfold samePrices. congruence.
Qed.

Lemma keeps_returns {A} net (t : task A) p :
  guar sameReturns t → returns (dataLoaded (run net t p).1) = returns (dataLoaded p).
Proof.
  intros Ht. apply (guar_run sameReturns); [reflexivity | | exact Ht].
  unfold sameReturns. congruence.
Qed.

(** What an upload or sample load that changed a flag must have seen. *)
Lemma run_loader net endpoint data (loaded_ : task unit) (label1 label2 : string) p :
  let r := requestOptions endpoint "POST" data in
  let t :=
    catch
      (result ← apiCall endpoint "POST" data;
       if success result
       then loaded_
       else showNotification (label1 +:+ show_str (message result)) "error")
      (λ error, consoleError label2 error) in
  dataLoaded (run net t p).1 ≠ dataLoaded p →
  ∃ b, readResponse (net (length (requests p)) r) = Normal b ∧ success b = true.
Proof.
  intros r t Hchanged. subst t.
  rewrite run_catch, run_mbind, run_apiCall in Hchanged. cbv zeta in Hchanged.
  fold r in Hchanged.
  destruct (readResponse (net (length (requests p)) r)) as [b|e].
  - destruct (success b) eqn:Hs; [eauto|]. exfalso. apply Hchanged. reflexivity.
  - exfalso. apply Hchanged. reflexivity.
Qed.

(** C9. The availability flags only ever go up.  Whatever happens on the
    page, a flag that is set stays set, through any session; and when an
    event sets a flag, the event is a file upload for that dataset or the
    sample load, and the service answered its request with [success]. *)
Theorem C9_flags_monotone net o p :
  let p' := (run net (handle o) p).1 in
  (prices (dataLoaded p) = true → prices (dataLoaded p') = true) ∧
  (returns (dataLoaded p) = true → returns (dataLoaded p') = true) ∧
  (prices (dataLoaded p') ≠ prices (dataLoaded p) →
     ∃ r b,
       ((∃ file rest, o = PricesFiles (file :: rest) ∧
                      r = requestOptions "/upload/prices" "POST" (FormData file))
        ∨ (o = LoadSampleData ∧ r = requestOptions "/load-sample-data" "POST" NoData)) ∧
       readResponse (net (length (requests p)) r) = Normal b ∧ success b = true) ∧
  (returns (dataLoaded p') ≠ returns (dataLoaded p) →
     ∃ r b,
       ((∃ file rest, o = ReturnsFiles (file :: rest) ∧
                      r = requestOptions "/upload/returns" "POST" (FormData file))
        ∨ (o = LoadSampleData ∧ r = requestOptions "/load-sample-data" "POST" NoData)) ∧
       readResponse (net (length (requests p)) r) = Normal b ∧ success b = true) ∧
  (∀ ops, flagsMonotone p (session net ops p)).
Proof.
  intros p'.
  assert (flagsMonotone p p') as [Hp Hr].
  { apply guar_run;
      [apply flagsMonotone_refl | apply flagsMonotone_trans
      | apply handle_flagsMonotone]. }
  split; [exact Hp|]. split; [exact Hr|].
  split; [|split; [|intros ops; apply session_flagsMonotone]].
  - intros Hchanged.
    assert (dataLoaded p' ≠ dataLoaded p) as Hl by congruence.
    destruct o as [|[|file rest]|files| | | | | | | | | |];
      try (exfalso; apply Hchanged; subst p'; apply keeps_prices; by guar_auto).
    + destruct (run_loader net "/upload/prices" (FormData file) _ _ _ p Hl)
        as (b & Hb & Hs).
      exists (requestOptions "/upload/prices" "POST" (FormData file)), b. eauto 8.
    + destruct (run_loader net "/load-sample-data" NoData _ _ _ p Hl)
        as (b & Hb & Hs).
      exists (requestOptions "/load-sample-data" "POST" NoData), b. eauto 8.
  - intros Hchanged.
    assert (dataLoaded p' ≠ dataLoaded p) as Hl by congruence.
    destruct o as [|files|[|file rest]| | | | | | | | | |];
      try (exfalso; apply Hchanged; subst p'; apply keeps_returns; by guar_auto).
    + destruct (run_loader net "/upload/returns" (FormData file) _ _ _ p Hl)
        as (b & Hb & Hs).
      exists (requestOptions "/upload/returns" "POST" (FormData file)), b. eauto 8.
    + destruct (run_loader net "/load-sample-data" NoData _ _ _ p Hl)
        as (b & Hb & Hs).
      exists (requestOptions "/load-sample-data" "POST" NoData), b. eauto 8.
Qed.

(** ** Data info and date bounds *)

Lemma refreshDataInfo_requests net p :
  requests (run net refreshDataInfo p).1 =
  requests p ++ [requestOptions "/data-info" "GET" NoData].
Proof.
  unfold refreshDataInfo. rewrite run_catch, run_mbind, run_apiCall. cbv zeta.
  set (r := requestOptions "/data-info" "GET" NoData).
  assert (requests (afterCall r (readResponse (net (length (requests p)) r)) p)
          = requests p ++ [r]) as Hcall.
  { destruct (readResponse _); simpl_requests; reflexivity. }
  destruct (readResponse _) as [b|e].
  - run_frame sameRequests.
    + reflexivity.
    + unfold sameRequests. congruence.
    + destruct (run net _ _) as [q [[]|e]]; simpl in *.
      * by rewrite Hframe.
      * unfold sameRequests in Hframe. simpl_requests.
        unfold requests in Hframe. rewrite Hframe. apply Hcall.
  - simpl. simpl_requests. reflexivity.
Qed.

Lemma run_updateDateInputs net dr s e q :
  isoDay (start dr) = Some s →
  isoDay (end_ dr) = Some e →
  let q' := (run net (updateDateInputs dr) q).1 in
  (run net (updateDateInputs dr) q).2 = Normal tt ∧
  di_min (startDate q') = s ∧ di_max (startDate q') = e ∧
  di_min (endDate q') = s ∧ di_max (endDate q') = e ∧
  di_value (startDate q') =
    (if String.eqb (di_value (startDate q)) "" then s else di_value (startDate q)) ∧
  di_value (endDate q') =
    (if String.eqb (di_value (endDate q)) "" then e else di_value (endDate q)).
Proof.
  intros Hs He. unfold updateDateInputs, toISODay. rewrite Hs, He. simpl.
  destruct (String.eqb (di_value (startDate q)) ""); simpl;
    destruct (String.eqb (di_value (endDate q)) ""); simpl; by repeat split.
Qed.

Lemma sameBounds_refl q : sameBounds q q.
Proof. by unfold sameBounds. Qed.

Lemma sameBounds_trans q1 q2 q3 :
  sameBounds q1 q2 → sameBounds q2 q3 → sameBounds q1 q3.
Proof.
  unfold sameBounds. intros (? & ? & ? & ?) (? & ? & ? & ?).
  repeat split; congruence.
Qed.

Lemma refreshDataInfo_bounds net p info pinfo dr s e :
  readResponse (net (length (requests p)) (requestOptions "/data-info" "GET" NoData))
    = Normal info →
  prices_loaded info = true →
  prices_info info = Some pinfo →
  date_range pinfo = Some dr →
  isoDay (start dr) = Some s →
  isoDay (end_ dr) = Some e →
  let p' := (run net refreshDataInfo p).1 in
  di_min (startDate p') = s ∧ di_max (startDate p') = e ∧
  di_min (endDate p') = s ∧ di_max (endDate p') = e.
Proof.
  intros Hread Hpl Hpi Hdr Hs He p'. subst p'.
  unfold refreshDataInfo. rewrite run_catch, run_mbind, run_apiCall. cbv zeta.
  rewrite Hread. unfold updateDataInfoDisplay. rewrite Hpl, Hpi. cbv [negb andb].
  rewrite !run_modify_bind, run_mbind.
  unfold infoCard, dateRangeOf. rewrite Hdr.
  rewrite run_lift_bind, run_modify_bind, run_lift_bind.
  match goal with
  | |- context [run net (updateDateInputs dr) ?q] =>
      destruct (run_updateDateInputs net dr s e q Hs He)
        as (Hn & H1 & H2 & H3 & H4 & _);
      destruct (run net (updateDateInputs dr) q) as [q1 c1]
  end.
  cbn [fst snd] in *. subst c1.
  run_frame sameBounds; [apply sameBounds_refl | apply sameBounds_trans |].
  destruct Hframe as (G1 & G2 & G3 & G4).
  destruct (run net _ q1) as [q2 [[]|e']]; cbn [fst snd] in *; simpl;
    (split; [congruence | split; [congruence | split; congruence]]).
Qed.

(** C2, as the script has it.  After a DataInfo refresh whose response
    reports the prices dataset loaded, with a date range the engine can
    read, the [min] and [max] of both date inputs are the days of the
    prices range, whatever data type is selected. *)
Theorem C2_date_bounds_from_prices net p info pinfo dr s e :
  readResponse (net (length (requests p)) (requestOptions "/data-info" "GET" NoData))
    = Normal info →
  prices_loaded info = true →
  prices_info info = Some pinfo →
  date_range pinfo = Some dr →
  isoDay (start dr) = Some s →
  isoDay (end_ dr) = Some e →
  let p' := (run net refreshDataInfo p).1 in
  di_min (startDate p') = s ∧ di_max (startDate p') = e ∧
  di_min (endDate p') = s ∧ di_max (endDate p') = e.
Proof. apply refreshDataInfo_bounds. Qed.

(** ** Reset *)

Lemma run_resetFilters net p :
  run net resetFilters p =
  run net
    (refreshDataInfo ≫= λ _,
       fork updateChart (showNotification "Filters reset successfully!" "success"))
    (resetControls p).
Proof. reflexivity. Qed.

Lemma refreshDataInfo_normal net p : (run net refreshDataInfo p).2 = Normal tt.
Proof. apply run_catch_normal. reflexivity. Qed.

Lemma sameSelection_trans q1 q2 q3 :
  sameSelection q1 q2 → sameSelection q2 q3 → sameSelection q1 q3.
Proof.
  unfold sameSelection. intros (? & ? & ? & ? & ? & ?) (? & ? & ? & ? & ? & ?).
  repeat split; congruence.
Qed.

Lemma sameFilter_trans q1 q2 q3 :
  sameFilter q1 q2 → sameFilter q2 q3 → sameFilter q1 q3.
Proof.
  unfold sameFilter.
  intros (? & ? & ? & ? & ? & ? & ?) (? & ? & ? & ? & ? & ? & ?).
  repeat split; congruence.
Qed.

Lemma refreshDataInfo_selection net p :
  sameSelection p (run net refreshDataInfo p).1.
Proof.
  apply guar_run;
    [by unfold sameSelection | apply sameSelection_trans
    | apply refreshDataInfo_sameSelection].
Qed.

Lemma updateStatistics_sameFilter : guar sameFilter updateStatistics.
Proof. guar_auto. Qed.

Lemma updateStatistics_filter net p :
  sameFilter p (run net updateStatistics p).1.
Proof.
  apply guar_run;
    [by unfold sameFilter | apply sameFilter_trans
    | apply updateStatistics_sameFilter].
Qed.

Lemma chartSettled_filter net p0 c q : sameFilter q (chartSettled net p0 c q).
Proof.
  unfold chartSettled.
  destruct c as [b|e]; [|by unfold sameFilter].
  destruct (success b); [|by unfold sameFilter].
  destruct (data b) as [d|]; [|by unfold sameFilter].
  destruct (chart q) as [c0|]; [|by unfold sameFilter].
  eapply sameFilter_trans; [|apply updateStatistics_filter].
  by unfold sameFilter.
Qed.

Lemma chartSettled_requests net p0 c q :
  ∃ l, requests (chartSettled net p0 c q) = requests q ++ l.
Proof.
  unfold chartSettled.
  destruct c as [b|e]; [|exists []; simpl_requests; reflexivity].
  destruct (success b); [|exists []; simpl_requests; reflexivity].
  destruct (data b) as [d|]; [|exists []; simpl_requests; reflexivity].
  destruct (chart q) as [c0|]; [|exists []; simpl_requests; reflexivity].
  rewrite updateStatistics_requests. eexists. reflexivity.
Qed.



(** ** Stat cards *)

(** With no current value the card reads "No Data" and the coverage, and
    nothing else of the entry is looked at. *)
Lemma statCard_no_data dataType_ fund stats :
  nullOrUndefined (current stats) = true →
  statCard dataType_ fund stats =
  Normal (Elem "div" "stat-card" ""
            [ Elem "div" "stat-label" "" [Text fund];
              Elem "div" "stat-value neutral" ("color: " +:+ show_str (fundColors !! fund))
                [Text "No Data"];
              Elem "div" "" "font-size: 0.7em; color: var(--text-muted); margin-top: 5px;"
                [Text (show (data_coverage stats) +:+ "% coverage")] ]).
Proof. intros Hc. unfold statCard. by rewrite Hc. Qed.

(** A missing change is shown as zero; with a JSON null for [min] the card
    has no range line and is built without an error. *)
Lemma statCard_null_min dataType_ fund q mx cnt tot cov :
  ∃ card,
    statCard dataType_ fund
      {| current := Val q; change := Null; min := Null; max := mx;
         count := cnt; total_periods := tot; data_coverage := cov |}
    = Normal card ∧
    changeOrZero Null = 0%Q.
Proof. unfold statCard. simpl. eauto. Qed.

(** C1, where the script falls short.  An entry with a current value whose
    [min] key is missing (undefined, not null) passes the [!== null] test,
    and [stats.min.toFixed] throws; so does [stats.max.toFixed] when [min]
    is a number and [max] is null.  The renderer catches the error and
    replaces the whole statistics panel by the error placeholder. *)
Theorem C1_statCard_throws_without_min dataType_ fund q m chg mx cnt tot cov :
  statCard dataType_ fund
    {| current := Val q; change := chg; min := Absent; max := mx;
       count := cnt; total_periods := tot; data_coverage := cov |}
  = Abrupt (Exn "TypeError" "Cannot read properties of undefined (reading 'toFixed')") ∧
  statCard dataType_ fund
    {| current := Val q; change := chg; min := Val m; max := Null;
       count := cnt; total_periods := tot; data_coverage := cov |}
  = Abrupt (Exn "TypeError" "Cannot read properties of null (reading 'toFixed')") ∧
  ∀ net p entry e,
    readResponse (net (length (requests p))
                    (requestOptions "/statistics" "POST" (Json (currentQuery p))))
      = Normal {| success := true; message := None; data := None;
                  statistics := Some {[fund := entry]};
                  prices_loaded := false; returns_loaded := false;
                  prices_info := None; returns_info := None |} →
    selectedFunds p = [fund] →
    statCard (dataType p) fund entry = Abrupt e →
    statsGrid (run net updateStatistics p).1 = statsError.
Proof.
  split; [reflexivity|]. split; [reflexivity|].
  intros net p entry e Hread Hsel Hcard.
  unfold updateStatistics. rewrite run_catch, run_Read, run_mbind, run_apiCall.
  cbv zeta. rewrite Hread. cbn [success statistics negb].
  rewrite run_modify_bind. rewrite map_size_singleton. cbn [Nat.eqb].
  rewrite run_Read.
  change (selectedFunds (set_statsGrid _ (afterCall _ _ p))) with (selectedFunds p).
  rewrite Hsel. cbn [forEach]. rewrite lookup_singleton_eq, run_bind, run_mbind, Hcard.
  reflexivity.
Qed.

(** ** The statistics panel *)

Lemma set_statsGrid_same q : set_statsGrid (statsGrid q) q = q.
Proof. by destruct q. Qed.

(** The card loop, from any page. *)
Lemma run_card_loop net dataType_ (m : gmap string stat_entry) funds q :
  run net
    (forEach funds (λ fund,
       match m !! fund with
       | Some stats =>
           card ← lift (statCard dataType_ fund stats);
           modify (λ p, set_statsGrid (statsGrid p ++ [card]) p)
       | None => Ret tt
       end)) q =
  (set_statsGrid (statsGrid q ++ (renderCards dataType_ m funds).1) q,
   match (renderCards dataType_ m funds).2 with
   | None => Normal tt
   | Some e => Abrupt e
   end).
Proof.
  revert q. induction funds as [|fund rest IH]; intros q.
  - simpl. by rewrite app_nil_r, set_statsGrid_same.
  - cbn [forEach renderCards]. rewrite run_bind.
    destruct (m !! fund) as [stats|].
    + rewrite run_mbind, run_lift.
      destruct (statCard dataType_ fund stats) as [card|e].
      * rewrite run_modify, IH.
        destruct (renderCards dataType_ m rest) as [cards err].
        cbn [fst snd statsGrid set_statsGrid]. by rewrite <- app_assoc.
      * simpl. by rewrite app_nil_r, set_statsGrid_same.
    + simpl. apply IH.
Qed.


Lemma updateStatistics_grid net p b m :
  readResponse (net (length (requests p))
                  (requestOptions "/statistics" "POST" (Json (currentQuery p))))
    = Normal b →
  success b = true →
  statistics b = Some m →
  size m ≠ 0%nat →
  statsGrid (run net updateStatistics p).1 =
  match renderCards (dataType p) m (selectedFunds p) with
  | (cards, None) => cards
  | (_, Some _) => statsError
  end.
Proof.
  intros Hread Hs Hm Hsize. unfold updateStatistics.
  rewrite run_catch, run_Read, run_mbind, run_apiCall. cbv zeta.
  rewrite Hread, Hs, Hm. cbn [negb].
  rewrite run_modify_bind.
  destruct (Nat.eqb_spec (size m) 0) as [Heq|_]; [contradiction|].
  rewrite run_Read, run_card_loop.
  change (selectedFunds (set_statsGrid _ (afterCall _ _ p))) with (selectedFunds p).
  destruct (renderCards (dataType p) m (selectedFunds p)) as [cards [e|]];
    reflexivity.
Qed.

(** What [renderCards] holds: a card for every fund with an entry, in
    order, when none throws. *)
Lemma renderCards_all dataType_ (m : gmap string stat_entry) funds :
  (∀ fund stats, fund ∈ funds → m !! fund = Some stats →
     ∃ card, statCard dataType_ fund stats = Normal card) →
  renderCards dataType_ m funds =
  (omap (λ fund,
           stats ← m !! fund;
           match statCard dataType_ fund stats with
           | Normal card => Some card
           | Abrupt _ => None
           end) funds, None).
Proof.
  induction funds as [|fund rest IH]; intros Hok; [reflexivity|].
  cbn [renderCards omap list_omap].
  rewrite IH by (intros f st Hf; apply Hok; by right).
  destruct (m !! fund) as [stats|] eqn:Hl; [|reflexivity].
  destruct (Hok fund stats (list_elem_of_here _ _) Hl) as [card Hcard].
  simpl. by rewrite Hcard.
Qed.

Lemma renderCards_throws dataType_ (m : gmap string stat_entry) funds fund stats e :
  fund ∈ funds → m !! fund = Some stats →
  statCard dataType_ fund stats = Abrupt e →
  ∃ e', (renderCards dataType_ m funds).2 = Some e'.
Proof.
  intros Hin Hl Hc. induction funds as [|f rest IH]; [by apply elem_of_nil in Hin|].
  cbn [renderCards].
  destruct (decide (f = fund)) as [->|Hne].
  - rewrite Hl, Hc. eauto.
  - apply elem_of_cons in Hin as [->|Hin]; [done|].
    destruct (IH Hin) as [e' He'].
    destruct (m !! f) as [st|]; [|eauto].
    destruct (statCard dataType_ f st); [|eauto].
    destruct (renderCards dataType_ m rest). eauto.
Qed.

(** X2. With a non-empty statistics mapping, and when every card can be
    built, the panel holds one card per selected fund that has an entry, in
    the order of the selection; funds without an entry are skipped.  If
    the card of one selected fund throws, the whole panel is the error
    placeholder instead, the cards of the other funds included. *)
Theorem updateStatistics_cards net p b m :
  readResponse (net (length (requests p))
                  (requestOptions "/statistics" "POST" (Json (currentQuery p))))
    = Normal b →
  success b = true →
  statistics b = Some m →
  size m ≠ 0%nat →
  let p' := (run net updateStatistics p).1 in
  ((∀ fund stats, fund ∈ selectedFunds p → m !! fund = Some stats →
      ∃ card, statCard (dataType p) fund stats = Normal card) →
   statsGrid p' =
     omap (λ fund,
             stats ← m !! fund;
             match statCard (dataType p) fund stats with
             | Normal card => Some card
             | Abrupt _ => None
             end) (selectedFunds p)) ∧
  (∀ fund stats e, fund ∈ selectedFunds p → m !! fund = Some stats →
     statCard (dataType p) fund stats = Abrupt e →
     statsGrid p' = statsError).
Proof.
  intros Hread Hs Hm Hsize p'. subst p'.
  rewrite (updateStatistics_grid net p b m Hread Hs Hm Hsize). split.
  - intros Hok. by rewrite renderCards_all.
  - intros fund stats e Hin Hl Hc.
    destruct (renderCards_throws (dataType p) m (selectedFunds p) fund stats e
                Hin Hl Hc) as [e' He'].
    destruct (renderCards (dataType p) m (selectedFunds p)) as [cards err].
    simpl in He'. by subst err.
Qed.

(** ** Relations kept by whole runs *)

Section Keeps.
Context (R : relation Page) `{!PreOrder R}.

Lemma keeps_Ret {A} (a : A) : keeps R (Ret a).
Proof. intros net p. reflexivity. Qed.

Lemma keeps_Throw {A} e : keeps R (@Throw A e).
Proof. intros net p. reflexivity. Qed.

Lemma keeps_lift {A} (c : completion A) : keeps R (lift c).
Proof. intros net p. rewrite run_lift. reflexivity. Qed.

Lemma keeps_modify f : (∀ p, R p (f p)) → keeps R (modify f).
Proof. intros Hf net p. apply Hf. Qed.

Lemma keeps_bind {A B} (t : task A) (f : A → task B) :
  keeps R t → (∀ a, keeps R (f a)) → keeps R (bind t f).
Proof.
  intros Ht Hf net p. rewrite run_bind. specialize (Ht net p).
  destruct (run net t p) as [q [a|e]]; [|exact Ht].
  etrans; [exact Ht | apply Hf].
Qed.

Lemma keeps_mbind {A B} (t : task A) (f : A → task B) :
  keeps R t → (∀ a, keeps R (f a)) → keeps R (t ≫= f).
Proof. apply keeps_bind. Qed.

Lemma keeps_catch {A} (t : task A) h :
  keeps R t → (∀ e, keeps R (h e)) → keeps R (catch t h).
Proof.
  intros Ht Hh net p. rewrite run_catch. specialize (Ht net p).
  destruct (run net t p) as [q [a|e]]; [exact Ht|].
  etrans; [exact Ht | apply Hh].
Qed.

Lemma keeps_finally {A} (t : task A) f :
  keeps R t → keeps R f → keeps R (finally t f).
Proof.
  intros Ht Hf net p. rewrite run_finally. specialize (Ht net p).
  destruct (run net t p) as [q c]. specialize (Hf net q).
  destruct (run net f q) as [q' [[]|e]]; etrans; eauto.
Qed.

Lemma keeps_Read {A} (k : Page → task A) :
  (∀ p0, keeps R (k p0)) → keeps R (Read k).
Proof. intros Hk net p. apply Hk. Qed.

(** Reading the page and acting on what was read, judged on that page. *)
Lemma keeps_Read_here {A} (k : Page → task A) :
  (∀ net p, R p (run net (k p) p).1) → keeps R (Read k).
Proof. intros Hk net p. apply Hk. Qed.

Lemma keeps_forEach {X} (xs : list X) body :
  (∀ x, keeps R (body x)) → keeps R (forEach xs body).
Proof.
  intros Hb. induction xs as [|x xs IH]; [apply keeps_Ret|].
  apply keeps_bind; auto.
Qed.

Lemma keeps_guar {A} (t : task A) : guar R t → keeps R t.
Proof.
  intros Ht net p. apply guar_run; [reflexivity | intros; by etrans | exact Ht].
Qed.

End Keeps.

#[local] Instance overlayStays_preorder : PreOrder overlayStays.
Proof.
  split; [intros p Hp; exact Hp | intros p q r Hpq Hqr Hp; auto].
Qed.

#[local] Instance valuesKept_preorder : PreOrder valuesKept.
Proof.
  split; [intros p; split; reflexivity|].
  intros p q r [Hs1 He1] [Hs2 He2]. split; intros Hne.
  - rewrite <- (Hs1 Hne). apply Hs2. by rewrite (Hs1 Hne).
  - rewrite <- (He1 Hne). apply He2. by rewrite (He1 Hne).
Qed.

Ltac guar_leaf ::=
  first
    [ exact I
    | solve [ cbv [flagsMonotone]; simpl; tauto ]
    | solve [ cbv [sameFilter sameSelection sameChart sameLoaded samePrices sameReturns
                   sameBounds];
              simpl; repeat split; reflexivity ]
    | solve [ cbv [sameRequests requests log]; simpl; rewrite ?omap_app; simpl;
              rewrite ?app_nil_r; reflexivity ]
    | solve [ cbv [overlayStays valuesKept]; simpl; auto ] ].

Create HintDb keeps.

(** A task that only makes updates the relation allows. *)
Ltac keeps_pure := apply keeps_guar; [typeclasses eauto|]; by guar_auto.

Ltac keeps_step :=
  cbv beta zeta;
  first
    [ solve [auto 1 with keeps nocore]
    | lazymatch goal with
      | |- keeps _ (bind _ _) => apply keeps_bind; [typeclasses eauto | |]
      | |- keeps _ (mbind _ _) => apply keeps_mbind; [typeclasses eauto | |]
      | |- keeps _ (catch _ _) => apply keeps_catch; [typeclasses eauto | |]
      | |- keeps _ (finally _ _) => apply keeps_finally; [typeclasses eauto | |]
      | |- keeps _ (forEach _ _) => apply keeps_forEach; [typeclasses eauto |]
      | |- keeps _ (Read _) => apply keeps_Read; intros ?
      | |- keeps _ (if ?b then _ else _) => destruct b
      | |- keeps _ (match ?x with _ => _ end) => destruct x
      | |- ∀ _, _ => intros ?
      | |- keeps _ ?t =>
          first [ solve [keeps_pure] | let h := head_of t in unfold h ]
      end ].

Ltac keeps_auto := repeat keeps_step.

(** ** The loading overlay *)

Lemma apiCall_overlay endpoint method data :
  keeps overlayStays (apiCall endpoint method data).
Proof.
  intros net p _. rewrite run_apiCall. cbv zeta.
  by destruct (readResponse _).
Qed.

#[local] Hint Resolve apiCall_overlay : keeps.

(** Whatever [t] does, hiding the overlay in [finally] leaves it hidden. *)
Lemma hide_overlay_finally {A} (t : task A) :
  keeps overlayStays (finally t (showLoading false)).
Proof.
  intros net p _. rewrite run_finally.
  by destruct (run net t p) as [q c].
Qed.

#[local] Hint Resolve hide_overlay_finally : keeps.

Lemma updateStatistics_overlay : keeps overlayStays updateStatistics.
Proof. keeps_auto. Qed.

Lemma chartSettled_overlay net p0 c q :
  overlayStays q (chartSettled net p0 c q).
Proof.
  unfold chartSettled.
  destruct c as [b|e]; [|by intros Hq].
  destruct (success b); [|by intros Hq].
  destruct (data b) as [d|]; [|by intros Hq].
  destruct (chart q) as [c0|]; [|by intros Hq].
  intros Hq. by apply updateStatistics_overlay.
Qed.

Lemma fork_updateChart_overlay msg type :
  keeps overlayStays (fork updateChart (showNotification msg type)).
Proof.
  intros net p Hp. rewrite run_fork_updateChart. cbv zeta.
  destruct (guardFails p); [exact Hp|].
  apply chartSettled_overlay. by destruct (readResponse _).
Qed.

#[local] Hint Resolve updateStatistics_overlay fork_updateChart_overlay : keeps.

Lemma updateChart_overlay : keeps overlayStays updateChart.
Proof. keeps_auto. Qed.

Lemma refreshDataInfo_overlay : keeps overlayStays refreshDataInfo.
Proof. keeps_auto. Qed.

#[local] Hint Resolve updateChart_overlay refreshDataInfo_overlay : keeps.

Lemma handle_overlay o : keeps overlayStays (handle o).
Proof. destruct o; keeps_auto. Qed.

(** X3. An event handler that finds the loading overlay hidden leaves it
    hidden when it has run to its end, whatever the service answered:
    every call made on the way has hidden it again.  So does any session
    of events. *)
Theorem overlay_hidden_after_events net ops p :
  loadingOverlay p = "none" →
  loadingOverlay (session net ops p) = "none".
Proof.
  revert p. induction ops as [|o ops IH]; intros p Hp; [exact Hp|].
  simpl. apply IH. by apply handle_overlay.
Qed.

(** ** Date values *)

Lemma updateDateInputs_values dr : keeps valuesKept (updateDateInputs dr).
Proof.
  intros net p. unfold updateDateInputs, toISODay.
  destruct (isoDay (start dr)) as [s|]; [|by split].
  destruct (isoDay (end_ dr)) as [e|]; [|by split].
  simpl.
  destruct (String.eqb_spec (di_value (startDate p)) "") as [Hs|Hs]; simpl;
    destruct (String.eqb_spec (di_value (endDate p)) "") as [He|He]; simpl;
    split; intros Hne; done.
Qed.

#[local] Hint Resolve updateDateInputs_values : keeps.

Lemma refreshDataInfo_values : keeps valuesKept refreshDataInfo.
Proof. keeps_auto. Qed.

#[local] Hint Resolve refreshDataInfo_values : keeps.

Lemma handle_values o :
  (∀ v, o ≠ ChangeStartDate v) → (∀ v, o ≠ ChangeEndDate v) →
  keeps valuesKept (handle o).
Proof.
  intros Hs He. destruct o; try (by keeps_auto).
  - by destruct (Hs v).
  - by destruct (He v).
Qed.

(** X4. No event other than the user's own edit of a date input changes a
    date the input already holds: uploads, refreshes and the reset fill in
    a date only where the input is empty.  In particular the reset keeps
    the dates the user had chosen. *)
Theorem dates_never_clobbered net o p :
  (∀ v, o ≠ ChangeStartDate v) →
  (∀ v, o ≠ ChangeEndDate v) →
  let p' := (run net (handle o) p).1 in
  (di_value (startDate p) ≠ "" → di_value (startDate p') = di_value (startDate p)) ∧
  (di_value (endDate p) ≠ "" → di_value (endDate p') = di_value (endDate p)).
Proof. intros Hs He. by apply handle_values. Qed.

Lemma sameFilter_refl q : sameFilter q q.
Proof. by unfold sameFilter. Qed.

(** The run of [updateDataInfoDisplay] on a body that reports prices with
    a date range, up to the call of [updateDateInputs]. *)
Lemma run_updateDataInfoDisplay_prices net info pinfo dr q :
  prices_loaded info = true →
  prices_info info = Some pinfo →
  date_range pinfo = Some dr →
  ∃ card rest,
    infoCard "📈 Prices Data" pinfo (pricesAvailabilityHTML pinfo) = Normal card ∧
    guar sameFilter rest ∧ guar sameRequests rest ∧
    (∀ q0, dataInfoGrid q0 = [card] →
           ∃ cards, dataInfoGrid (run net rest q0).1 = card :: cards) ∧
    run net (updateDataInfoDisplay info) q =
    match run net (updateDateInputs dr)
            (set_dataInfoGrid [card] (set_dataInfoGrid [] (set_dataInfoCard "block" q)))
    with
    | (q1, Normal _) => run net rest q1
    | (q1, Abrupt e) => (q1, Abrupt e)
    end.
Proof.
  intros Hpl Hpi Hdr. unfold updateDataInfoDisplay. rewrite Hpl, Hpi.
  cbv [negb andb]. unfold infoCard, dateRangeOf. rewrite Hdr.
  eexists. eexists. split; [reflexivity|].
  rewrite !run_modify_bind, run_mbind.
  rewrite run_lift_bind, run_modify_bind, run_lift_bind.
  split; [|split; [|split; [|reflexivity]]].
  - guar_auto.
  - guar_auto.
  - intros q0 Hq0. cbv beta.
    destruct (returns_loaded info); [|eexists; exact Hq0].
    destruct (returns_info info) as [rinfo|]; [|eexists; exact Hq0].
    destruct (date_range rinfo) as [rdr|]; [|eexists; exact Hq0].
    rewrite run_lift_bind, run_modify. cbn [fst dataInfoGrid set_dataInfoGrid].
    rewrite Hq0. eexists. reflexivity.
Qed.

(** X5. When a refresh finds the prices range, a date input that is empty
    takes the matching end of the range as its value and an input that
    holds a date keeps it. *)
Theorem refresh_fills_empty_dates net p info pinfo dr s e :
  readResponse (net (length (requests p)) (requestOptions "/data-info" "GET" NoData))
    = Normal info →
  prices_loaded info = true →
  prices_info info = Some pinfo →
  date_range pinfo = Some dr →
  isoDay (start dr) = Some s →
  isoDay (end_ dr) = Some e →
  let p' := (run net refreshDataInfo p).1 in
  di_value (startDate p') =
    (if String.eqb (di_value (startDate p)) "" then s else di_value (startDate p)) ∧
  di_value (endDate p') =
    (if String.eqb (di_value (endDate p)) "" then e else di_value (endDate p)).
Proof.
  intros Hread Hpl Hpi Hdr Hs He p'. subst p'.
  unfold refreshDataInfo. rewrite run_catch, run_mbind, run_apiCall. cbv zeta.
  rewrite Hread.
  destruct (run_updateDataInfoDisplay_prices net info pinfo dr
              (afterCall (requestOptions "/data-info" "GET" NoData) (Normal info) p)
              Hpl Hpi Hdr) as (card & rest & _ & Hrest & _ & _ & ->).
  match goal with
  | |- context [run net (updateDateInputs dr) ?q] =>
      destruct (run_updateDateInputs net dr s e q Hs He)
        as (Hn & _ & _ & _ & _ & Hv1 & Hv2);
      destruct (run net (updateDateInputs dr) q) as [q1 c1]
  end.
  cbn [fst snd] in Hn, Hv1, Hv2. subst c1.
  pose proof (guar_run sameFilter net rest q1 sameFilter_refl sameFilter_trans Hrest)
    as (_ & _ & _ & Hstart & Hend & _).
  destruct (run net rest q1) as [q2 [[]|e']]; cbn [fst snd] in *; simpl;
    rewrite Hstart, Hend; split; assumption.
Qed.

(** X6. A prices range whose end the engine cannot read stops the refresh
    half way: [startDate.min] is already the start of the range, the other
    three bounds and both values are as before, the prices card is the
    only card shown even when returns are loaded, and the error ends in
    the console.  When it is the start that cannot be read, no date input
    is touched at all. *)
Theorem refresh_stops_at_unreadable_date net p info pinfo dr :
  readResponse (net (length (requests p)) (requestOptions "/data-info" "GET" NoData))
    = Normal info →
  prices_loaded info = true →
  prices_info info = Some pinfo →
  date_range pinfo = Some dr →
  let p' := (run net refreshDataInfo p).1 in
  let failed := Exn "RangeError" "Invalid time value" in
  (isoDay (start dr) = None ∨ isoDay (end_ dr) = None →
     (run net refreshDataInfo p).2 = Normal tt ∧
     last (trace p') = Some (EvConsoleError "Error refreshing data info:" failed) ∧
     (∃ card, dataInfoGrid p' = [card]) ∧
     di_value (startDate p') = di_value (startDate p) ∧
     di_max (startDate p') = di_max (startDate p) ∧
     endDate p' = endDate p) ∧
  (isoDay (start dr) = None → startDate p' = startDate p) ∧
  (∀ s, isoDay (start dr) = Some s → isoDay (end_ dr) = None →
        di_min (startDate p') = s).
Proof.
  intros Hread Hpl Hpi Hdr p' failed. subst p'.
  unfold refreshDataInfo. rewrite run_catch, run_mbind, run_apiCall. cbv zeta.
  rewrite Hread.
  destruct (run_updateDataInfoDisplay_prices net info pinfo dr
              (afterCall (requestOptions "/data-info" "GET" NoData) (Normal info) p)
              Hpl Hpi Hdr) as (card & rest & _ & _ & _ & _ & ->).
  unfold updateDateInputs, toISODay.
  destruct (isoDay (start dr)) as [s|] eqn:Hs.
  - destruct (isoDay (end_ dr)) as [e|] eqn:He.
    + split; [intros [|]; discriminate|]. split; [discriminate|].
      intros s' _ [=].
    + simpl. split; [|split; [discriminate|by intros s' [= <-] _]].
      intros _. split; [reflexivity|]. split; [by rewrite last_snoc|].
      split; [by exists card|]. by repeat split.
  - simpl. split; [|split; [reflexivity|discriminate]].
    intros _. split; [reflexivity|]. split; [by rewrite last_snoc|].
    split; [by exists card|]. by repeat split.
Qed.

(** ** Refresh, loaders and the guard *)

(** X7. A DataInfo refresh never throws and sends exactly one request.  It
    leaves the availability flags, the selection, the controls' data and
    chart types, the chart and the statistics panel alone, also when the
    service reports datasets as loaded.  When the call fails the info
    panel and the date inputs stay as they were; when the service reports
    nothing loaded the info card is hidden and its grid and the date
    inputs stay as they were. *)
Theorem refreshDataInfo_frame net p :
  let r := requestOptions "/data-info" "GET" NoData in
  let c := readResponse (net (length (requests p)) r) in
  let p' := (run net refreshDataInfo p).1 in
  (run net refreshDataInfo p).2 = Normal tt ∧
  requests p' = requests p ++ [r] ∧
  dataLoaded p' = dataLoaded p ∧
  selectedFunds p' = selectedFunds p ∧
  dataType p' = dataType p ∧ chartType p' = chartType p ∧
  chart p' = chart p ∧
  (∀ e, c = Abrupt e → sameInfoPanel p p') ∧
  (∀ info, c = Normal info →
     prices_loaded info = false → returns_loaded info = false →
     dataInfoCard p' = "none" ∧ dataInfoGrid p' = dataInfoGrid p ∧
     startDate p' = startDate p ∧ endDate p' = endDate p).
Proof.
  intros r c p'.
  destruct (refreshDataInfo_selection net p) as (Hf & Ht & Hc & Hl & _ & Hch).
  split; [apply refreshDataInfo_normal|].
  split; [apply refreshDataInfo_requests|].
  do 5 (split; [assumption|]).
  subst p'. unfold refreshDataInfo.
  rewrite run_catch, run_mbind, run_apiCall. cbv zeta. fold r. fold c.
  split.
  - intros e ->. by unfold sameInfoPanel.
  - intros info -> Hp Hr. unfold updateDataInfoDisplay. by rewrite Hp, Hr.
Qed.

Lemma run_updateChart_blocked net p :
  guardFails p = true → run net updateChart p = (chartBlocked p, Normal tt).
Proof. intros Hg. unfold updateChart. simpl. by rewrite Hg. Qed.

(** What follows a successful load: the refresh, then the chart. *)
Lemma run_refresh_then_chart net q :
  let q1 := (run net refreshDataInfo q).1 in
  let r := requestOptions "/chart-data" "POST" (Json (currentQuery q1)) in
  let c := readResponse (net (length (requests q1)) r) in
  run net (refreshDataInfo ≫= λ _, updateChart) q =
  (if guardFails q1 then chartBlocked q1
   else chartSettled net q1 c (afterCall r c q1), Normal tt).
Proof.
  intros q1 r c. rewrite run_mbind.
  pose proof (refreshDataInfo_normal net q) as Hn.
  subst q1 r c. destruct (run net refreshDataInfo q) as [q1 c1].
  simpl in Hn. subst c1. cbn [fst].
  destruct (guardFails q1) eqn:Hg.
  - by apply run_updateChart_blocked.
  - by apply run_updateChart_passed.
Qed.

(** The requests and the filter after the refresh and the chart. *)
Lemma refresh_then_chart_facts net q :
  let q' := (run net (refreshDataInfo ≫= λ _, updateChart) q).1 in
  dataLoaded q' = dataLoaded q ∧ dataType q' = dataType q ∧
  ∃ rest,
    requests q' = requests q ++ requestOptions "/data-info" "GET" NoData :: rest ∧
    (guardFails q = true →
       rest = [] ∧
       notification q' =
         Some ("No " +:+ dataType q +:+
               " data loaded. Please upload a CSV file first.", "warning")) ∧
    (guardFails q = false →
       ∃ rest', rest = requestOptions "/chart-data" "POST" (Json (currentQuery q'))
                       :: rest').
Proof.
  intros q'. subst q'. rewrite run_refresh_then_chart. cbv zeta. cbn [fst].
  destruct (refreshDataInfo_selection net q) as (Hf & Ht & Hc & Hl & _ & _).
  pose proof (refreshDataInfo_requests net q) as Hreq.
  set (q1 := (run net refreshDataInfo q).1) in *.
  assert (guardFails q1 = guardFails q) as Hg
    by (unfold guardFails; by rewrite Ht, Hl).
  rewrite Hg. destruct (guardFails q) eqn:Hgq.
  - split; [exact Hl|]. split; [exact Ht|]. exists [].
    split; [|split; [|discriminate]].
    + unfold chartBlocked. simpl_requests. unfold requests in Hreq. by rewrite Hreq.
    + intros _. split; [reflexivity|]. unfold chartBlocked. simpl. by rewrite Ht.
  - set (r := requestOptions "/chart-data" "POST" (Json (currentQuery q1))).
    set (c := readResponse (net (length (requests q1)) r)).
    pose proof (chartSettled_filter net q1 c (afterCall r c q1))
      as (Kf & Kt & Kc & Ks & Ke & Kl & _).
    assert (sameFilter q1 (afterCall r c q1)) as (Af & At & Ac & As & Ae & Al & _)
      by (destruct c; by unfold sameFilter).
    split; [by rewrite Kl, Al|]. split; [by rewrite Kt, At|].
    destruct (chartSettled_requests net q1 c (afterCall r c q1)) as [l Hl'].
    exists (r :: l). split; [|split; [discriminate|]].
    + rewrite Hl'.
      assert (requests (afterCall r c q1) = requests q1 ++ [r]) as ->
        by (destruct c; simpl_requests; reflexivity).
      rewrite Hreq, <- !app_assoc. reflexivity.
    + intros _. exists l.
      assert (currentQuery (chartSettled net q1 c (afterCall r c q1))
              = currentQuery q1) as ->; [|reflexivity].
      unfold currentQuery. by rewrite Kf, Kt, Ks, Ke, Af, At, As, Ae.
Qed.

(** X8. An upload of prices or of returns that the service accepts sets
    the flag of that dataset and leaves the other one, then asks for
    DataInfo and runs the chart renderer.  If the selected data type is
    the other dataset and that one is not loaded, no chart request follows
    and the warning of the guard is what stays on screen, in place of the
    success notification. *)
Theorem upload_success net file p b (upload : string → task unit)
    (endpoint : string) (flags : loaded) :
  (upload = uploadPricesFile ∧ endpoint = "/upload/prices" ∧
   flags = {| prices := true; returns := returns (dataLoaded p) |}) ∨
  (upload = uploadReturnsFile ∧ endpoint = "/upload/returns" ∧
   flags = {| prices := prices (dataLoaded p); returns := true |}) →
  let r := requestOptions endpoint "POST" (FormData file) in
  readResponse (net (length (requests p)) r) = Normal b →
  success b = true →
  let p' := (run net (upload file) p).1 in
  let blocked := guardFails (set_dataLoaded flags p) in
  dataLoaded p' = flags ∧
  ∃ rest,
    requests p' = requests p ++ r :: requestOptions "/data-info" "GET" NoData :: rest ∧
    (blocked = true →
       rest = [] ∧
       notification p' =
         Some ("No " +:+ dataType p +:+
               " data loaded. Please upload a CSV file first.", "warning")) ∧
    (blocked = false →
       ∃ rest', rest = requestOptions "/chart-data" "POST" (Json (currentQuery p'))
                       :: rest').
Proof.
  intros Hup r Hread Hs p' blocked.
  assert (∃ okmsg,
            run net (upload file) p =
            run net (refreshDataInfo ≫= λ _, updateChart)
              (log (EvNotify okmsg "success")
                 (set_notification (Some (okmsg, "success"))
                    (set_dataLoaded flags (afterCall r (Normal b) p))))) as [okmsg Hrun].
  { destruct Hup as [(-> & -> & ->)|(-> & -> & ->)].
    - exists "Prices data loaded successfully!". unfold uploadPricesFile. rewrite run_catch, run_mbind, run_apiCall.
      cbv zeta. fold r. rewrite Hread, Hs.
      rewrite run_modify_bind. unfold showNotification. rewrite run_modify_bind.
      pose proof (run_refresh_then_chart net) as Hrc. cbv zeta in Hrc.
      rewrite Hrc. cbv iota beta. symmetry. apply Hrc.
    - exists "Returns data loaded successfully!". unfold uploadReturnsFile.
      rewrite run_catch, run_mbind, run_apiCall.
      cbv zeta. fold r. rewrite Hread, Hs.
      rewrite run_modify_bind. unfold showNotification. rewrite run_modify_bind.
      pose proof (run_refresh_then_chart net) as Hrc. cbv zeta in Hrc.
      rewrite Hrc. cbv iota beta. symmetry. apply Hrc. }
  subst p'. rewrite Hrun.
  match goal with
  | |- context [run net _ ?q] =>
      destruct (refresh_then_chart_facts net q) as (Hl & Ht & rest & Hreq & Hb & Hp)
  end.
  cbv zeta in Hl, Ht, Hreq, Hb, Hp.
  split; [exact Hl|]. exists rest. split; [|split].
  - rewrite Hreq. simpl_requests. reflexivity.
  - exact Hb.
  - exact Hp.
Qed.

(** X9. A sample load that the service accepts sets both flags, asks for
    DataInfo and then always sends the chart request for the filter on
    the page: with both datasets loaded the guard cannot stop it. *)
Theorem loadSampleData_success net p b :
  readResponse (net (length (requests p))
                  (requestOptions "/load-sample-data" "POST" NoData)) = Normal b →
  success b = true →
  let p' := (run net loadSampleData p).1 in
  dataLoaded p' = {| prices := true; returns := true |} ∧
  ∃ rest,
    requests p' =
      requests p ++
      [ requestOptions "/load-sample-data" "POST" NoData;
        requestOptions "/data-info" "GET" NoData;
        requestOptions "/chart-data" "POST" (Json (currentQuery p')) ] ++ rest.
Proof.
  intros Hread Hs p'.
  assert (run net loadSampleData p =
          run net (refreshDataInfo ≫= λ _, updateChart)
            (log (EvNotify "Sample data loaded successfully!" "success")
               (set_notification (Some ("Sample data loaded successfully!", "success"))
                  (set_dataLoaded {| prices := true; returns := true |}
                     (afterCall (requestOptions "/load-sample-data" "POST" NoData)
                        (Normal b) p))))) as Hrun.
  { unfold loadSampleData. rewrite run_catch, run_mbind, run_apiCall.
    cbv zeta. rewrite Hread, Hs.
    rewrite !run_modify_bind. unfold showNotification. rewrite run_modify_bind.
    pose proof (run_refresh_then_chart net) as Hrc. cbv zeta in Hrc.
    rewrite Hrc. cbv iota beta. symmetry. apply Hrc. }
  subst p'. rewrite Hrun.
  match goal with
  | |- context [run net _ ?q] =>
      destruct (refresh_then_chart_facts net q) as (Hl & _ & rest & Hreq & _ & Hp)
  end.
  cbv zeta in Hl, Hreq, Hp.
  split; [exact Hl|].
  destruct Hp as [rest' ->].
  { unfold guardFails. simpl. by rewrite !andb_false_r. }
  exists rest'. rewrite Hreq. simpl_requests. reflexivity.
Qed.

Lemma guardFails_false p :
  ¬ ((dataType p = "prices" ∧ prices (dataLoaded p) = false) ∨
     (dataType p = "returns" ∧ returns (dataLoaded p) = false)) →
  guardFails p = false.
Proof.
  intros Hn. unfold guardFails.
  destruct (String.eqb_spec (dataType p) "prices") as [H1|H1];
    destruct (String.eqb_spec (dataType p) "returns") as [H2|H2];
    destruct (prices (dataLoaded p)) eqn:Hp;
    destruct (returns (dataLoaded p)) eqn:Hr; simpl; try reflexivity;
    exfalso; apply Hn; auto.
Qed.

(** X10. The guard of the chart renderer is the only thing that keeps it
    from the service: unless the selected data type is prices with no
    prices loaded or returns with no returns loaded, a chart update sends
    the chart-data request for the filter on the page as its first
    request.  A data type that is neither of the two is never stopped. *)
Theorem updateChart_sends_when_unblocked net p :
  ¬ ((dataType p = "prices" ∧ prices (dataLoaded p) = false) ∨
     (dataType p = "returns" ∧ returns (dataLoaded p) = false)) →
  ∃ rest,
    requests (run net updateChart p).1 =
    requests p ++ requestOptions "/chart-data" "POST" (Json (currentQuery p)) :: rest.
Proof.
  intros Hn. rewrite (run_updateChart_passed net p (guardFails_false p Hn)).
  cbv zeta. cbn [fst].
  set (r := requestOptions "/chart-data" "POST" (Json (currentQuery p))).
  set (c := readResponse (net (length (requests p)) r)).
  destruct (chartSettled_requests net p c (afterCall r c p)) as [l ->].
  exists l.
  assert (requests (afterCall r c p) = requests p ++ [r]) as ->
    by (destruct c; simpl_requests; reflexivity).
  by rewrite <- app_assoc.
Qed.

(** X11. The heading is written before the datasets are read.  When a
    response says [success] but carries no data, or no chart object
    exists, the chart title is already the one of the selected data type
    while the chart itself is untouched and the generic error notification
    is shown; a response without [success] leaves the title alone. *)
Theorem updateChart_title_before_data net p b :
  guardFails p = false →
  readResponse (net (length (requests p))
                  (requestOptions "/chart-data" "POST" (Json (currentQuery p))))
    = Normal b →
  let p' := (run net updateChart p).1 in
  let title := "📈 " +:+ (if String.eqb (dataType p) "prices"
                           then "Share Price" else "Return Rate") +:+ " Analysis" in
  (success b = false → chartTitle p' = chartTitle p) ∧
  (success b = true → chartTitle p' = title) ∧
  (success b = true → data b = None ∨ chart p = None →
     chart p' = chart p ∧
     notification p' = Some ("Error updating chart. Please try again.", "error")).
Proof.
  intros Hg Hread p' title. subst p'.
  rewrite (run_updateChart_passed net p Hg). cbv zeta. rewrite Hread. cbn [fst].
  unfold chartSettled. change (chart (afterCall _ _ p)) with (chart p).
  split; [by intros ->|]. split.
  - intros ->. destruct (data b) as [d|]; [|reflexivity].
    destruct (chart p) as [c0|]; [|reflexivity].
    assert (guar (λ a a', chartTitle a' = chartTitle a) updateStatistics) as Hguar
      by (guar_auto; reflexivity).
    match goal with
    | |- context [run net updateStatistics ?q] =>
        rewrite (guar_run (λ a a', chartTitle a' = chartTitle a) net
                   updateStatistics q (λ _, eq_refl)
                   (λ a1 a2 a3 H12 H23, eq_trans H23 H12) Hguar)
    end.
    reflexivity.
  - intros -> [Hd|Hc].
    + rewrite Hd. by split.
    + rewrite Hc. destruct (data b); by split.
Qed.

(** ** Export *)

Lemma run_fetch_bind {B} net r (k : outcome → task B) p :
  run net (fetch r ≫= k) p =
  run net (k (net (length (requests p)) r)) (log (EvRequest r) p).
Proof. reflexivity. Qed.


Ltac guar_leaf ::=
  first
    [ exact I
    | solve [ cbv [flagsMonotone]; simpl; tauto ]
    | solve [ cbv [sameFilter sameSelection sameChart sameLoaded samePrices sameReturns
                   sameBounds sameDownloads sameFunds];
              simpl; repeat split; reflexivity ]
    | solve [ cbv [sameRequests requests log]; simpl; rewrite ?omap_app; simpl;
              rewrite ?app_nil_r; reflexivity ]
    | solve [ cbv [overlayStays valuesKept]; simpl; auto ] ].

Lemma keeps_downloads {A} net (t : task A) p :
  guar sameDownloads t → downloads (run net t p).1 = downloads p.
Proof.
  intros Ht. apply (guar_run sameDownloads); [reflexivity | | exact Ht].
  unfold sameDownloads. congruence.
Qed.

Lemma exportData_downloads net p :
  downloads (run net exportData p).1 = downloads p ∨
  ∃ d, downloads (run net exportData p).1 = downloads p ++ [d].
Proof.
  remember (run net exportData p) as res eqn:Hres.
  unfold exportData in Hres.
  rewrite run_finally, run_catch, run_Read in Hres. cbv beta zeta in Hres.
  destruct (guardFails p).
  - simpl in Hres. subst res. by left.
  - unfold showLoading at 1 in Hres.
    rewrite run_modify_bind, run_fetch_bind in Hres.
    destruct (net _ _) as [e|resp].
    + simpl in Hres. subst res. by left.
    + destruct (ok resp); simpl in Hres; subst res; [right; eexists|left];
        reflexivity.
Qed.

(** X13. Only the two export buttons ever download anything: every other
    event leaves the list of downloads as it was, and an export adds at
    most one file to it and removes none. *)
Theorem downloads_only_by_export net o p :
  let p' := (run net (handle o) p).1 in
  (o ≠ ExportChart → o ≠ ExportData → downloads p' = downloads p) ∧
  (downloads p' = downloads p ∨ ∃ d, downloads p' = downloads p ++ [d]).
Proof.
  intros p'. subst p'.
  assert (o ≠ ExportChart → o ≠ ExportData →
          downloads (run net (handle o) p).1 = downloads p) as Hother.
  { intros H1 H2. destruct o; try done; apply keeps_downloads; by guar_auto. }
  split; [exact Hother|].
  destruct o; try (left; by apply Hother).
  - simpl. destruct (chart p) as [c|]; [right; eexists|left]; reflexivity.
  - apply exportData_downloads.
Qed.

(** ** The fund selection *)

Lemma elem_of_set_add x f (s : list string) : x ∈ set_add f s ↔ x = f ∨ x ∈ s.
Proof.
  unfold set_add. case_bool_decide as Hf.
  - split; [by right | intros [->|]; assumption].
  - rewrite elem_of_app, list_elem_of_singleton. tauto.
Qed.

Lemma elem_of_set_delete x f (s : list string) :
  x ∈ set_delete f s ↔ x ∈ s ∧ x ≠ f.
Proof. unfold set_delete. rewrite list_elem_of_filter. tauto. Qed.

Lemma NoDup_set_add f (s : list string) : NoDup s → NoDup (set_add f s).
Proof.
  intros Hs. unfold set_add. case_bool_decide as Hf; [exact Hs|].
  apply NoDup_app. split; [exact Hs|]. split; [|apply NoDup_singleton].
  intros x Hx Hx'. apply list_elem_of_singleton in Hx' as ->. contradiction.
Qed.

Lemma NoDup_set_delete f (s : list string) : NoDup s → NoDup (set_delete f s).
Proof. apply NoDup_filter. Qed.

Lemma keeps_funds {A} net (t : task A) p :
  guar sameFunds t → sameFunds p (run net t p).1.
Proof.
  intros Ht. apply (guar_run sameFunds); [by unfold sameFunds | | exact Ht].
  unfold sameFunds. intros q1 q2 q3 [] []. split; congruence.
Qed.

Lemma inStep_sameFunds p p' : sameFunds p p' → inStep p → inStep p'.
Proof. intros [Hs Hb] Hp c. rewrite Hs, Hb. apply Hp. Qed.

(** The page when the change handler of a checkbox starts the chart. *)
Lemma run_toggleFund net fund checked p :
  run net (toggleFund fund checked) p =
  run net updateChart
    (set_selectedFunds
       (if checked then set_add fund (selectedFunds p)
        else set_delete fund (selectedFunds p))
       (set_fundSelection
          (map (λ c, if String.eqb (cb_value c) fund
                     then {| cb_value := cb_value c; cb_checked := checked;
                             cb_color := cb_color c; cb_label_checked := checked |}
                     else c) (fundSelection p)) p)).
Proof. reflexivity. Qed.

Lemma toggleFund_funds net fund checked p :
  let p' := (run net (toggleFund fund checked) p).1 in
  selectedFunds p' =
    (if checked then set_add fund (selectedFunds p)
     else set_delete fund (selectedFunds p)) ∧
  fundSelection p' =
    map (λ c, if String.eqb (cb_value c) fund
              then {| cb_value := cb_value c; cb_checked := checked;
                      cb_color := cb_color c; cb_label_checked := checked |}
              else c) (fundSelection p).
Proof.
  intros p'. subst p'. rewrite run_toggleFund.
  match goal with
  | |- context [run net updateChart ?q] =>
      destruct (keeps_funds net updateChart q) as [-> ->]; [by guar_auto|]
  end.
  by split.
Qed.

Lemma toggleFund_inStep net fund checked p :
  inStep p → inStep (run net (toggleFund fund checked) p).1.
Proof.
  intros Hp c. destruct (toggleFund_funds net fund checked p) as [-> ->].
  intros Hc. apply list_elem_of_fmap in Hc as (c0 & -> & Hc0).
  destruct (Hp c0 Hc0) as [Hiff Hlabel].
  destruct (String.eqb_spec (cb_value c0) fund) as [Hv|Hv]; cbn.
  - split; [|reflexivity]. rewrite Hv. destruct checked.
    + rewrite elem_of_set_add. tauto.
    + rewrite elem_of_set_delete. split; [discriminate | intros []; done].
  - split; [|exact Hlabel]. rewrite Hiff. destruct checked.
    + rewrite elem_of_set_add. split; [tauto | intros [|]; done].
    + rewrite elem_of_set_delete. tauto.
Qed.

Lemma resetFilters_funds net p :
  sameFunds (resetControls p) (run net resetFilters p).1.
Proof. rewrite run_resetFilters. apply keeps_funds. by guar_auto. Qed.

Lemma init_funds net p :
  sameFunds
    (set_fundSelection
       (map (λ fund, {| cb_value := fund; cb_checked := true;
                        cb_color := show_str (fundColors !! fund);
                        cb_label_checked := true |}) allFunds) p)
    (run net init p).1.
Proof.
  change (run net init p) with
    (run net (initializeChart ≫= λ _, refreshDataInfo)
       (set_fundSelection
          (map (λ fund, {| cb_value := fund; cb_checked := true;
                           cb_color := show_str (fundColors !! fund);
                           cb_label_checked := true |}) allFunds) p)).
  apply keeps_funds. by guar_auto.
Qed.

Lemma inStep_all_checked p :
  fundSelection p =
    map (λ fund, {| cb_value := fund; cb_checked := true;
                    cb_color := show_str (fundColors !! fund);
                    cb_label_checked := true |}) allFunds →
  selectedFunds p = allFunds →
  inStep p.
Proof.
  intros Hb Hs c Hc. rewrite Hb in Hc.
  apply list_elem_of_fmap in Hc as (f & -> & Hf). cbn. rewrite Hs. tauto.
Qed.

Lemma handle_inStep net o p :
  o ≠ Init → inStep p → inStep (run net (handle o) p).1.
Proof.
  intros Ho Hp.
  destruct o; try done;
    try (eapply inStep_sameFunds; [|exact Hp]; apply keeps_funds; by guar_auto).
  - by apply toggleFund_inStep.
  - eapply inStep_sameFunds; [apply resetFilters_funds|].
    by apply inStep_all_checked.
Qed.

(** X14. From the load of the page on, the selection and the checkboxes
    never drift apart: after the initialisation and any events that
    follow (toggles, resets, uploads, exports, control changes), every
    checkbox is checked exactly when its fund is in [selectedFunds], and
    its label is marked checked exactly when the box is. *)
Theorem selection_in_step net ops p :
  selectedFunds p = allFunds →
  Init ∉ ops →
  inStep (session net (Init :: ops) p).
Proof.
  intros Hall Hops. cbn [session foldl].
  assert (inStep (run net (handle Init) p).1) as Hinit.
  { eapply inStep_sameFunds; [apply init_funds|].
    by apply inStep_all_checked. }
  revert Hinit. generalize (run net (handle Init) p).1.
  induction ops as [|o ops IH]; intros q Hq; [exact Hq|].
  cbn [foldl]. apply not_elem_of_cons in Hops as [Ho Hops].
  apply IH; [exact Hops|]. apply handle_inStep; [congruence | exact Hq].
Qed.

(** X15. [selectedFunds] behaves as a set: no event ever puts a fund into
    it twice, through any session. *)
Theorem selection_never_duplicates net ops p :
  NoDup (selectedFunds p) →
  NoDup (selectedFunds (session net ops p)).
Proof.
  revert p. induction ops as [|o ops IH]; intros p Hp; [exact Hp|].
  cbn [session foldl]. apply IH.
  destruct o as [|files|files| | |v|v|v|v|fund checked| | |];
    try (match goal with
         | |- NoDup (selectedFunds (run net ?t p).1) =>
             destruct (keeps_funds net t p) as [-> _]; [by guar_auto | exact Hp]
         end);
    cbn [handle].
  - destruct (init_funds net p) as [-> _]. exact Hp.
  - destruct (toggleFund_funds net fund checked p) as [-> _].
    destruct checked; [by apply NoDup_set_add | by apply NoDup_set_delete].
  - destruct (resetFilters_funds net p) as [-> _].
    change (NoDup allFunds). by apply (bool_decide_unpack (NoDup allFunds)).
Qed.

(** X16. Unchecking a fund and checking it again does not restore the
    order of the selection: the fund ends up last, behind the funds that
    stayed selected, and that is the order of the [funds] of later
    requests and of the stat cards. *)
Theorem recheck_moves_fund_last net fund p :
  selectedFunds
    (session net [ToggleFund fund false; ToggleFund fund true] p) =
  filter (λ y, y ≠ fund) (selectedFunds p) ++ [fund].
Proof.
  cbn [session foldl handle].
  destruct (toggleFund_funds net fund true
              (run net (toggleFund fund false) p).1) as [-> _].
  destruct (toggleFund_funds net fund false p) as [-> _].
  unfold set_add, set_delete. case_bool_decide as Hin; [|reflexivity].
  apply list_elem_of_filter in Hin as [Hne _]. contradiction.
Qed.

(** ** The notification banner *)

Lemma filter_all {A} (P : A → Prop) `{∀ x, Decision (P x)} (l : list A) :
  Forall P l → filter P l = l.
Proof.
  induction 1 as [|x l Hx _ IH]; [reflexivity|].
  rewrite filter_cons. case_decide; [by f_equal | contradiction].
Qed.

Lemma banner_step_length e d :
  (length (Banner.body d) ≤ 1)%nat → (length (Banner.body (Banner.step e d)) ≤ 1)%nat.
Proof.
  intros Hd. destruct d as [[|b [|b' bs]] n ps qs]; simpl in Hd; try lia;
    destruct e as [m t|i|i|i]; simpl;
    unfold Banner.autoRemove, Banner.finishRemove, Banner.attached, Banner.remove;
    simpl; repeat (case_bool_decide; simpl); try lia;
    repeat (case_decide; simpl); try lia;
    rewrite filter_cons; case_decide; simpl; rewrite ?filter_nil; simpl; lia.
Qed.

(** X17. At most one banner is on the page at any time: whatever
    notifications are shown, dismissed by their button or taken away by
    their timers, in any order, a page that held at most one banner holds
    at most one; and right after a notification is shown the banner on the
    page is that one. *)
Theorem banner_at_most_one es d :
  (length (Banner.body d) ≤ 1)%nat →
  (length (Banner.body (Banner.run es d)) ≤ 1)%nat ∧
  ∀ message type,
    Banner.body (Banner.run (es ++ [Banner.Show message type]) d) =
    [ {| Banner.id := Banner.created (Banner.run es d);
         Banner.text := message; Banner.kind := type;
         Banner.leaving := false |} ].
Proof.
  intros Hd.
  assert (length (Banner.body (Banner.run es d)) ≤ 1)%nat as Hlen.
  { revert d Hd. induction es as [|e es IH]; intros d Hd; [exact Hd|].
    apply IH. by apply banner_step_length. }
  split; [exact Hlen|]. intros message type.
  unfold Banner.run in *. rewrite foldl_app. cbn [foldl Banner.step].
  destruct (foldl _ d es) as [[|b [|b' bs]] n ps qs]; simpl in Hlen; try lia.
  - reflexivity.
  - unfold Banner.showNotification, Banner.remove. simpl.
    rewrite filter_cons. by case_decide.
Qed.

(** X18. A banner leaves the page only through its own button, its own
    timers or the next notification: a click or a timer that belongs to
    another banner, a stale one included, leaves it where it is, with its
    text and kind.  Dismissing is idempotent: a second click on the same
    button, or a timer that fires after the banner is gone, changes
    nothing. *)
Theorem banner_only_own_events e i d :
  Banner.target e = Some i →
  (∀ b, b ∈ Banner.body d → Banner.id b ≠ i → b ∈ Banner.body (Banner.step e d)) ∧
  (Banner.attached i d = false →
     Banner.body (Banner.step e d) = Banner.body d) ∧
  Banner.step (Banner.Click i) (Banner.step (Banner.Click i) d)
    = Banner.step (Banner.Click i) d.
Proof.
  intros He. split; [|split].
  - intros b Hb Hne. destruct e as [m t|j|j|j]; simplify_eq/=.
    + apply list_elem_of_filter. by split.
    + case_bool_decide; [|exact Hb].
      unfold Banner.autoRemove, Banner.attached. simpl.
      case_bool_decide; [|exact Hb]. simpl.
      apply list_elem_of_fmap. exists b. split; [|exact Hb].
      destruct (Nat.eqb_spec (Banner.id b) i); [contradiction|reflexivity].
    + case_bool_decide; [|exact Hb].
      unfold Banner.finishRemove, Banner.attached. simpl.
      case_bool_decide; [|exact Hb]. simpl.
      apply list_elem_of_filter. by split.
  - intros Hatt. unfold Banner.attached in Hatt.
    apply bool_decide_eq_false in Hatt.
    destruct e as [m t|j|j|j]; simplify_eq/=.
    + apply filter_all. apply Forall_forall. intros x Hx <-.
      apply Hatt. apply list_elem_of_fmap. eauto.
    + case_bool_decide; [|reflexivity].
      unfold Banner.autoRemove, Banner.attached. simpl.
      by rewrite bool_decide_eq_false_2.
    + case_bool_decide; [|reflexivity].
      unfold Banner.finishRemove, Banner.attached. simpl.
      by rewrite bool_decide_eq_false_2.
  - unfold Banner.step, Banner.remove. simpl. f_equal.
    by apply list_filter_filter_r.
Qed.

(** X19. A banner that is left alone goes away by itself: once its
    5000 ms timer has fired it is still on the page, sliding out, and once
    the 300 ms timer set by the first has fired the page holds no
    banner. *)
Theorem banner_auto_dismiss message type d :
  (length (Banner.body d) ≤ 1)%nat →
  let n := Banner.created d in
  Banner.body (Banner.run [Banner.Show message type; Banner.Fire n] d) =
    [ {| Banner.id := n; Banner.text := message; Banner.kind := type;
         Banner.leaving := true |} ] ∧
  Banner.body
    (Banner.run [Banner.Show message type; Banner.Fire n; Banner.FireRemoval n] d)
    = [].
Proof.
  intros Hd n.
  assert (Banner.body (Banner.showNotification message type d) =
          [ {| Banner.id := n; Banner.text := message; Banner.kind := type;
               Banner.leaving := false |} ]) as Hshow.
  { destruct d as [[|b [|b' bs]] k ps qs]; simpl in Hd; try lia; [reflexivity|].
    unfold Banner.showNotification, Banner.remove. simpl.
    rewrite filter_cons. by case_decide. }
  assert (n ∈ Banner.pending (Banner.showNotification message type d)) as Hp.
  { unfold Banner.showNotification. simpl. apply list_elem_of_here. }
  unfold Banner.run. cbn [foldl]. cbn [Banner.step].
  destruct (Banner.showNotification message type d) as [bd k ps qs].
  simpl in Hshow, Hp. subst bd.
  rewrite (bool_decide_eq_true_2 _ Hp).
  unfold Banner.autoRemove, Banner.attached. simpl.
  rewrite (bool_decide_eq_true_2 (n ∈ [n])) by apply list_elem_of_here.
  simpl. rewrite Nat.eqb_refl. split; [reflexivity|].
  rewrite (bool_decide_eq_true_2 (n ∈ n :: qs)) by apply list_elem_of_here.
  unfold Banner.finishRemove, Banner.attached, Banner.remove. simpl.
  rewrite (bool_decide_eq_true_2 (n ∈ [n])) by apply list_elem_of_here.
  simpl. rewrite filter_cons. by case_decide.
Qed.

(** ** The sample load that fails, and the two selectors *)

(** X20. A sample load that the service turns down or that fails in
    transit never throws, sends exactly one request and leaves the flags,
    the chart, the date inputs and the statistics as they were: nothing is
    refreshed or redrawn.  An error notification is on screen; when the
    service answered without [success] it is "Error loading sample data: "
    followed by the message of the answer. *)
Theorem loadSampleData_failure net p :
  let r := requestOptions "/load-sample-data" "POST" NoData in
  let o := net (length (requests p)) r in
  uploadRefused o = true →
  let p' := (run net loadSampleData p).1 in
  (run net loadSampleData p).2 = Normal tt ∧
  requests p' = requests p ++ [r] ∧
  dataLoaded p' = dataLoaded p ∧ chart p' = chart p ∧
  startDate p' = startDate p ∧ endDate p' = endDate p ∧
  statsGrid p' = statsGrid p ∧ loadingOverlay p' = "none" ∧
  (∃ msg, notification p' = Some (msg, "error")) ∧
  (∀ b, readResponse o = Normal b →
     notification p' =
       Some ("Error loading sample data: " +:+ show_str (message b), "error")).
Proof.
  intros r o Href p'. subst p'. unfold uploadRefused in Href.
  assert (run net loadSampleData p =
          match readResponse o with
          | Normal b =>
              (log (EvNotify ("Error loading sample data: " +:+ show_str (message b))
                      "error")
                 (set_notification
                    (Some ("Error loading sample data: " +:+ show_str (message b),
                           "error"))
                    (afterCall r (Normal b) p)), Normal tt)
          | Abrupt e =>
              (log (EvConsoleError "Error loading sample data:" e)
                 (afterCall r (Abrupt e) p), Normal tt)
          end) as Hrun.
  { unfold loadSampleData. rewrite run_catch, run_mbind, run_apiCall.
    cbv zeta. fold r. fold o.
    destruct (readResponse o) as [b|e]; [|reflexivity].
    apply negb_true_iff in Href. rewrite Href. reflexivity. }
  rewrite Hrun. clear Hrun.
  destruct (readResponse o) as [b|e]; simpl.
  - repeat split; try (simpl_requests; reflexivity); eauto.
    intros b' Hb. by simplify_eq.
  - repeat split; try (simpl_requests; reflexivity); eauto.
    intros b' Hb. discriminate Hb.
Qed.

Lemma keeps_kinds {A} net (t : task A) p :
  guar sameKinds t → sameKinds p (run net t p).1.
Proof.
  intros Ht. apply (guar_run sameKinds); [by unfold sameKinds | | exact Ht].
  unfold sameKinds. intros q1 q2 q3 [] []. split; congruence.
Qed.

Ltac guar_leaf ::=
  first
    [ exact I
    | solve [ cbv [flagsMonotone]; simpl; tauto ]
    | solve [ cbv [sameFilter sameSelection sameChart sameLoaded samePrices sameReturns
                   sameBounds sameDownloads sameFunds sameKinds];
              simpl; repeat split; reflexivity ]
    | solve [ cbv [sameRequests requests log]; simpl; rewrite ?omap_app; simpl;
              rewrite ?app_nil_r; reflexivity ]
    | solve [ cbv [overlayStays valuesKept]; simpl; auto ] ].

(** X21. The data type and the chart type belong to the user: apart from
    a change of the selector itself and the reset button, no event changes
    either of them, whatever the service answers. *)
Theorem kinds_only_by_user net o p :
  (∀ v, o ≠ ChangeDataType v) →
  (∀ v, o ≠ ChangeChartType v) →
  o ≠ ResetFilters →
  let p' := (run net (handle o) p).1 in
  dataType p' = dataType p ∧ chartType p' = chartType p.
Proof.
  intros Hd Hc Hr p'. subst p'.
  change (sameKinds p (run net (handle o) p).1).
  destruct o as [|files|files| | |v|v|v|v|fund checked| | |];
    try (by destruct (Hd v)); try (by destruct (Hc v)); try done;
    apply keeps_kinds; by guar_auto.
Qed.

End Properties.

(** ** Instances *)

(** The guard on the page where nothing is loaded. *)
Lemma C3_updateChart_guard_witness :
  let p' := (run badHeader (updateChart (host := demoHost)) readyPage).1 in
  trace p' =
    [EvNotify "No prices data loaded. Please upload a CSV file first." "warning"] ∧
  requests p' = [] ∧
  notification p' =
    Some ("No prices data loaded. Please upload a CSV file first.", "warning") ∧
  chart p' = chart readyPage ∧
  statsGrid p' = [].
Proof.
  apply (C3_updateChart_guard (host := demoHost) badHeader readyPage).
  left. split; reflexivity.
Defined.

(** A prices upload turned down with "bad header". *)
Lemma C4_upload_failure_atomic_witness :
  let p' := (run badHeader (uploadPricesFile (host := demoHost) "prices.csv") readyPage).1 in
  dataLoaded p' = {| prices := false; returns := false |} ∧
  requests p' =
    [requestOptions "/upload/prices" "POST" (FormData "prices.csv")] ∧
  notification p' = Some ("Error loading prices: bad header", "error").
Proof.
  pose proof (C4_upload_failure_atomic (host := demoHost) badHeader "prices.csv"
                readyPage uploadPricesFile "/upload/prices" "Error loading prices: "
                (or_introl (conj eq_refl (conj eq_refl eq_refl))) eq_refl)
    as (Hflags & Hreq & _ & _ & Hmsg).
  split; [exact Hflags|]. split; [exact Hreq|].
  exact (Hmsg _ _ "bad header" eq_refl eq_refl eq_refl eq_refl).
Defined.

(** With returns selected and both datasets loaded over different ranges,
    the bounds after a refresh are not those of the returns dataset. *)
Lemma C2_bounds_ignore_data_type :
  ¬ boundsFollowDataType (host := demoHost) infoService returnsPage.
Proof.
  intros Hclaim.
  destruct (Hclaim infoBody returnsRange eq_refl eq_refl) as [Hmin _].
  vm_compute in Hmin. discriminate Hmin.
Qed.

(** They are those of the prices dataset. *)
Lemma C2_date_bounds_from_prices_witness :
  let p' := (run infoService (refreshDataInfo (host := demoHost)) returnsPage).1 in
  dataType p' = "returns" ∧
  di_min (startDate p') = "2020-01-02" ∧ di_max (startDate p') = "2020-12-28" ∧
  di_min (endDate p') = "2020-01-02" ∧ di_max (endDate p') = "2020-12-28".
Proof.
  split; [reflexivity|].
  exact (C2_date_bounds_from_prices (host := demoHost) infoService returnsPage
           infoBody pricesInfo pricesRange "2020-01-02" "2020-12-28"
           eq_refl eq_refl eq_refl eq_refl eq_refl eq_refl).
Defined.

(** Three labels and two datasets of three points. *)
Lemma C5_chart_series_witness :
  ∃ c, chart (run demoService (updateChart (host := demoHost)) loadedPage).1 = Some c ∧
       length (labels c) = 3%nat ∧ length (datasets c) = 2%nat ∧
       Forall (λ series, seriesLength series = Some 3%nat) (datasets c).
Proof.
  assert (Forall (λ dataset, seriesLength dataset = Some 3%nat)
            (cd_datasets demoChart)) as Hpoints
    by (repeat constructor).
  destruct (C5_chart_series (host := demoHost) demoService loadedPage
              {| success := true; message := None; data := Some demoChart;
                 statistics := None; prices_loaded := false;
                 returns_loaded := false; prices_info := None;
                 returns_info := None |}
              demoChart {| labels := []; datasets := []; y_title := "Value" |}
              3%nat 2%nat
              eq_refl eq_refl eq_refl eq_refl eq_refl eq_refl eq_refl Hpoints)
    as (c & Hc & _ & Hn & _ & Hk & Hlen & _).
  exists c. auto.
Defined.


(** The export guard on the page where nothing is loaded. *)
Lemma C10_exportData_guard_witness :
  let p' := (run badHeader (exportData (host := demoHost)) readyPage).1 in
  trace p' = [EvNotify "No prices data loaded to export" "warning"; EvLoading false] ∧
  requests p' = [] ∧
  notification p' = Some ("No prices data loaded to export", "warning") ∧
  downloads p' = [].
Proof.
  apply (C10_exportData_guard (host := demoHost) badHeader readyPage).
  left. split; reflexivity.
Defined.

(** The missing-[min] entry in a whole run: the panel ends as the error
    placeholder, although the service answered with [success]. *)
Lemma C1_noMin_panel :
  statsGrid (run noMinService (updateStatistics (host := demoHost)) loadedPage).1
  = statsError.
Proof. vm_compute. reflexivity. Qed.

(** A reset on the page with returns selected, against the service with
    both datasets loaded: DataInfo, then the chart for prices over the
    prices range, the reset banner while the chart request is under way,
    then the statistics. *)
Lemma resetFilters_example :
  let p' := (run infoService (resetFilters (host := demoHost)) returnsPage).1 in
  map url (requests p') =
    ["http://localhost:5000/api/data-info"; "http://localhost:5000/api/chart-data";
     "http://localhost:5000/api/statistics"] ∧
  currentQuery p' =
    {| data_type := "prices"; start_date := "2020-01-02"; end_date := "2020-12-28";
       funds := allFunds |} ∧
  (labels <$> chart p') = Some (cd_labels demoChart) ∧
  notification p' = Some ("Filters reset successfully!", "success").
Proof. vm_compute. repeat split; reflexivity. Qed.


(** The G fund with every key and the I fund without data: two
    cards, in the order of the selection. *)
Lemma updateStatistics_cards_witness :
  length (statsGrid (run statsService (updateStatistics (host := demoHost))
                       loadedPage).1) = 2%nat.
Proof.
  destruct (updateStatistics_cards (host := demoHost) statsService loadedPage
              statsBody _ eq_refl eq_refl eq_refl ltac:(by vm_compute))
    as [Hall _].
  rewrite Hall; [vm_compute; reflexivity|].
  intros fund stats _ Hm.
  apply lookup_insert_Some in Hm as [[<- <-]|[_ Hm]]; [by eexists|].
  apply lookup_insert_Some in Hm as [[<- <-]|[_ Hm]]; [by eexists|].
  by rewrite lookup_empty in Hm.
Defined.

(** The overlay after a load of the page, a sample load and a change of
    the data type. *)
Lemma overlay_hidden_after_events_witness :
  loadingOverlay
    (session (host := demoHost) demoService
       [Init; LoadSampleData; ChangeDataType "returns"] readyPage) = "none".
Proof.
  apply (overlay_hidden_after_events (host := demoHost)). reflexivity.
Defined.

(** A refresh against the service with both datasets loaded leaves the two
    chosen dates alone. *)
Lemma dates_never_clobbered_witness :
  let p' := (run infoService (handle (host := demoHost) RefreshDataInfo)
               datesChosenPage).1 in
  di_value (startDate p') = "2020-05-05" ∧ di_value (endDate p') = "2020-06-06".
Proof.
  destruct (dates_never_clobbered (host := demoHost) infoService RefreshDataInfo
              datesChosenPage
              ltac:(intros v; discriminate) ltac:(intros v; discriminate))
    as [Hs He].
  split; [apply Hs | apply He]; discriminate.
Defined.

(** The chosen start date is kept and the empty end date becomes the end
    of the prices range. *)
Lemma refresh_fills_empty_dates_witness :
  let p' := (run infoService (refreshDataInfo (host := demoHost)) startChosenPage).1 in
  di_value (startDate p') = "2020-05-05" ∧ di_value (endDate p') = "2020-12-28".
Proof.
  exact (refresh_fills_empty_dates (host := demoHost) infoService startChosenPage
           infoBody pricesInfo pricesRange "2020-01-02" "2020-12-28"
           eq_refl eq_refl eq_refl eq_refl eq_refl eq_refl).
Defined.

(** A range that ends in "n/a": the start input has its lower bound, the
    end input has nothing. *)
Lemma refresh_stops_at_unreadable_date_witness :
  let p' := (run brokenInfoService (refreshDataInfo (host := demoHost)) loadedPage).1 in
  di_min (startDate p') = "2020-01-02" ∧
  di_max (startDate p') = "" ∧
  endDate p' = emptyInput.
Proof.
  destruct (refresh_stops_at_unreadable_date (host := demoHost) brokenInfoService
              loadedPage brokenInfoBody _ brokenRange
              eq_refl eq_refl eq_refl eq_refl)
    as (Hstop & _ & Hmin).
  destruct (Hstop (or_intror eq_refl)) as (_ & _ & _ & _ & Hmax & Hend).
  split; [exact (Hmin _ eq_refl eq_refl)|]. split; [exact Hmax | exact Hend].
Defined.

(** An accepted prices upload on the fresh page. *)
Lemma upload_success_witness :
  dataLoaded (run demoService (uploadPricesFile (host := demoHost) "prices.csv")
                readyPage).1
  = {| prices := true; returns := false |}.
Proof.
  exact (proj1 (upload_success (host := demoHost) demoService "prices.csv" readyPage
                  okBody uploadPricesFile "/upload/prices"
                  {| prices := true; returns := false |}
                  (or_introl (conj eq_refl (conj eq_refl eq_refl)))
                  eq_refl eq_refl)).
Defined.

(** An accepted sample load on the fresh page. *)
Lemma loadSampleData_success_witness :
  dataLoaded (run demoService (loadSampleData (host := demoHost)) readyPage).1
  = {| prices := true; returns := true |}.
Proof.
  exact (proj1 (loadSampleData_success (host := demoHost) demoService readyPage
                  okBody eq_refl eq_refl)).
Defined.

(** The loaded page passes the guard. *)
Lemma updateChart_sends_when_unblocked_witness :
  ∃ rest,
    requests (run demoService (updateChart (host := demoHost)) loadedPage).1 =
    requestOptions "/chart-data" "POST" (Json (currentQuery loadedPage)) :: rest.
Proof.
  apply (updateChart_sends_when_unblocked (host := demoHost) demoService loadedPage).
  intros [[_ H]|[H _]]; discriminate H.
Defined.

(** The heading for prices. *)
Lemma updateChart_title_before_data_witness :
  chartTitle (run demoService (updateChart (host := demoHost)) loadedPage).1
  = "📈 Share Price Analysis".
Proof.
  destruct (updateChart_title_before_data (host := demoHost) demoService loadedPage
              _ eq_refl eq_refl) as (_ & Htitle & _).
  exact (Htitle eq_refl).
Defined.


(** The boxes after a load of the page, an unchecked fund and a reset. *)
Lemma selection_in_step_witness :
  inStep (session (host := demoHost) demoService
            [Init; ToggleFund "GFund" false; ResetFilters] readyPage).
Proof.
  apply (selection_in_step (host := demoHost) demoService
           [ToggleFund "GFund" false; ResetFilters] readyPage); [reflexivity|].
  intros Hin.
  apply elem_of_cons in Hin as [Hin|Hin]; [discriminate Hin|].
  apply elem_of_cons in Hin as [Hin|Hin]; [discriminate Hin|].
  by apply elem_of_nil in Hin.
Defined.

(** Checking a fund that is selected already. *)
Lemma selection_never_duplicates_witness :
  NoDup (selectedFunds (session (host := demoHost) demoService
                          [ToggleFund "GFund" true] readyPage)).
Proof.
  apply (selection_never_duplicates (host := demoHost)).
  change (NoDup allFunds). by apply (bool_decide_unpack (NoDup allFunds)).
Defined.

(** Two notifications, then the timer of the first. *)
Lemma banner_at_most_one_witness :
  (length (Banner.body (Banner.run [Banner.Fire 0] twoShown)) ≤ 1)%nat.
Proof.
  apply (banner_at_most_one [Banner.Fire 0] twoShown). vm_compute. lia.
Defined.

(** The timer of the first banner fires while the second is shown. *)
Lemma banner_only_own_events_witness :
  Banner.body (Banner.step (Banner.Fire 0) twoShown) = Banner.body twoShown.
Proof.
  destruct (banner_only_own_events (Banner.Fire 0) 0%nat twoShown eq_refl)
    as (_ & Hstale & _).
  exact (Hstale eq_refl).
Defined.

(** A banner on a page without banners. *)
Lemma banner_auto_dismiss_witness :
  Banner.body
    (Banner.run [Banner.Show "Done" "success"; Banner.Fire 0; Banner.FireRemoval 0]
       Banner.empty) = [].
Proof.
  apply (banner_auto_dismiss "Done" "success" Banner.empty). simpl. lia.
Defined.


(** A sample load turned down with "bad header". *)
Lemma loadSampleData_failure_witness :
  let p' := (run badHeader (loadSampleData (host := demoHost)) readyPage).1 in
  dataLoaded p' = {| prices := false; returns := false |} ∧
  notification p' = Some ("Error loading sample data: bad header", "error").
Proof.
  destruct (loadSampleData_failure (host := demoHost) badHeader readyPage eq_refl)
    as (_ & _ & Hflags & _ & _ & _ & _ & _ & _ & Hmsg).
  split; [exact Hflags | exact (Hmsg _ eq_refl)].
Defined.

(** A sample load changes neither selector. *)
Lemma kinds_only_by_user_witness :
  let p' := (run infoService (handle (host := demoHost) LoadSampleData) returnsPage).1 in
  dataType p' = "returns" ∧ chartType p' = "line".
Proof.
  apply (kinds_only_by_user (host := demoHost) infoService LoadSampleData returnsPage);
    [intros v; discriminate | intros v; discriminate | discriminate].
Defined.
